(** * Aadhaar enrollment analytics dashboard: filter engine and aggregation blocks

    A shallow embedding of [app.py].  The script is a Streamlit program: it is
    re-run from top to bottom on every interaction, reads the widget values,
    derives [filtered_data] from the full table and feeds it to a fixed
    sequence of aggregation blocks.

    Modelling conventions.
    - A pandas DataFrame with the dashboard's schema is a list of typed rows
      plus the names of the optional integer columns the file carries.
    - Python [str] values are Rocq strings holding their UTF-8 bytes; byte
      order and code-point order coincide, and so do the ASCII tests used by
      the CSV writer.
    - Integer columns are [Z] (the counts of the data set are far below the
      64-bit range of the pandas dtype); the file is feature-engineered
      upstream and has no missing cells.
    - Floating point results are exact rationals extended with nan and the
      two infinities; rounding is not modelled.
    - An uncaught Python exception ends the script run: blocks live in an
      error monad that also records the elements rendered so far. *)

From Stdlib Require Import List ZArith QArith Bool String Ascii DecimalString.
From Stdlib Require Import Lia Permutation Sorted Field.
From Stdlib Require DecimalPos DecimalZ.
Import ListNotations.

Local Open Scope string_scope.
Local Open Scope Z_scope.
Local Open Scope list_scope.

(* ------------------------------------------------------------------ *)
(** ** Data model *)

(** The eight columns every block relies on. *)
Definition required_columns : list string :=
  ["state"; "district"; "year"; "quarter"; "month"; "day_of_week";
   "is_weekend"; "total_enrollment"].

(** One enrollment record.  [extras] holds the values of the optional
    columns, in the order of [extra_columns] of the enclosing frame. *)
Record Row := mkRow {
  state : string;
  district : string;
  year : Z;
  quarter : Z;
  month : Z;
  day_of_week : Z;
  is_weekend : Z;
  total_enrollment : Z;
  extras : list Z
}.

Record DataFrame := mkDF {
  extra_columns : list string;
  rows : list Row
}.

(** [df.columns] *)
Definition columns (df : DataFrame) : list string :=
  required_columns ++ extra_columns df.


(** [len(df)] *)
Definition len (df : DataFrame) : nat := List.length (rows df).

(** [df[mask]]: boolean-mask row selection keeps schema and row order. *)
Definition mask (f : Row -> bool) (df : DataFrame) : DataFrame :=
  mkDF (extra_columns df) (filter f (rows df)).

(* ------------------------------------------------------------------ *)
(** ** Sidebar widgets: the selection state *)

(** An entry of the year and quarter multiselects: the string ['All'] or one
    of the integers found in the column. *)
Inductive Choice := All | Val (z : Z).

Definition Choice_eqb (a b : Choice) : bool :=
  match a, b with
  | All, All => true
  | Val x, Val y => Z.eqb x y
  | _, _ => false
  end.

(** The radio button ['All' | 'Weekday Only' | 'Weekend Only']. *)
Inductive DayType := DayAll | WeekdayOnly | WeekendOnly.

Record Selection := mkSel {
  selected_states : list string;
  selected_years : list Choice;
  selected_quarters : list Choice;
  weekend_options : DayType
}.

(** ['All' in selected_states] *)
Definition has_All_str (sel : list string) : bool :=
  existsb (String.eqb "All") sel.

(** ['All' in selected_years] *)
Definition has_All (sel : list Choice) : bool :=
  existsb (Choice_eqb All) sel.

(** [series.isin(selected_states)], row by row *)
Definition isin_str (sel : list string) (s : string) : bool :=
  existsb (String.eqb s) sel.

(** [series.isin(selected_years)] on an integer column *)
Definition isin (sel : list Choice) (z : Z) : bool :=
  existsb (Choice_eqb (Val z)) sel.

(* ------------------------------------------------------------------ *)
(** ** Apply Filter (app.py, lines 106-124) *)

Definition filter_states (sel : list string) (fd : DataFrame) : DataFrame :=
  if negb (has_All_str sel) && (0 <? List.length sel)%nat
  then mask (fun r => isin_str sel (state r)) fd
  else fd.

Definition filter_years (sel : list Choice) (fd : DataFrame) : DataFrame :=
  if negb (has_All sel) && (0 <? List.length sel)%nat
  then mask (fun r => isin sel (year r)) fd
  else fd.

Definition filter_quarters (sel : list Choice) (fd : DataFrame) : DataFrame :=
  if negb (has_All sel) && (0 <? List.length sel)%nat
  then mask (fun r => isin sel (quarter r)) fd
  else fd.

Definition filter_weekend (d : DayType) (fd : DataFrame) : DataFrame :=
  match d with
  | WeekdayOnly => mask (fun r => Z.eqb (is_weekend r) 0) fd
  | WeekendOnly => mask (fun r => Z.eqb (is_weekend r) 1) fd
  | DayAll => fd
  end.

Definition filtered_data (data : DataFrame) (sel : Selection) : DataFrame :=
  let fd := data in
  let fd := filter_states (selected_states sel) fd in
  let fd := filter_years (selected_years sel) fd in
  let fd := filter_quarters (selected_quarters sel) fd in
  let fd := filter_weekend (weekend_options sel) fd in
  fd.

(* ------------------------------------------------------------------ *)
(** ** The filter contract, in the words of the specification *)

Module FilterSpec.

(** state predicate: the record's state is among the selected states,
    unless the selection is empty or contains the sentinel. *)
Definition state_ok (sel : Selection) (r : Row) : Prop :=
  selected_states sel = [] \/ In "All" (selected_states sel)
  \/ In (state r) (selected_states sel).

Definition year_ok (sel : Selection) (r : Row) : Prop :=
  selected_years sel = [] \/ In All (selected_years sel)
  \/ In (Val (year r)) (selected_years sel).

Definition quarter_ok (sel : Selection) (r : Row) : Prop :=
  selected_quarters sel = [] \/ In All (selected_quarters sel)
  \/ In (Val (quarter r)) (selected_quarters sel).

Definition day_ok (sel : Selection) (r : Row) : Prop :=
  match weekend_options sel with
  | WeekdayOnly => is_weekend r = 0
  | WeekendOnly => is_weekend r = 1
  | DayAll => True
  end.

Definition satisfies (sel : Selection) (r : Row) : Prop :=
  state_ok sel r /\ year_ok sel r /\ quarter_ok sel r /\ day_ok sel r.

End FilterSpec.


(* ------------------------------------------------------------------ *)
(** ** Numbers

    pandas hands back numpy scalars: integer sums stay integers, and every
    true division, mean or percent change is a float64.  Division by zero on
    numpy scalars does not raise (the script silences the warning at line 9);
    it yields nan or a signed infinity. *)

Inductive pyfloat := Fin (q : Q) | NaN | PInf | NInf.

(** Equality of floats as values: rationals are compared by [Qeq]. *)
Definition feq (x y : pyfloat) : Prop :=
  match x, y with
  | Fin a, Fin b => Qeq a b
  | NaN, NaN => True
  | PInf, PInf => True
  | NInf, NInf => True
  | _, _ => False
  end.

Definition of_int (z : Z) : pyfloat := Fin (inject_Z z).

(** Sign of a float, [None] for nan. *)
Definition fsign (x : pyfloat) : option comparison :=
  match x with
  | Fin q => Some (Qcompare q 0)
  | PInf => Some Gt
  | NInf => Some Lt
  | NaN => None
  end.

Definition inf_of (c : comparison) : pyfloat :=
  match c with Gt => PInf | Lt => NInf | Eq => NaN end.

Definition sign_mul (a b : comparison) : comparison :=
  match a, b with
  | Eq, _ | _, Eq => Eq
  | Gt, c => c
  | Lt, c => CompOpp c
  end.

Definition fneg (x : pyfloat) : pyfloat :=
  match x with
  | Fin q => Fin (Qopp q)
  | NaN => NaN
  | PInf => NInf
  | NInf => PInf
  end.

Definition fadd (x y : pyfloat) : pyfloat :=
  match x, y with
  | NaN, _ | _, NaN => NaN
  | Fin a, Fin b => Fin (Qplus a b)
  | PInf, NInf | NInf, PInf => NaN
  | PInf, _ | _, PInf => PInf
  | NInf, _ | _, NInf => NInf
  end.

Definition fsub (x y : pyfloat) : pyfloat := fadd x (fneg y).

Definition fmul (x y : pyfloat) : pyfloat :=
  match x, y with
  | Fin a, Fin b => Fin (Qmult a b)
  | _, _ =>
      match fsign x, fsign y with
      | Some a, Some b => inf_of (sign_mul a b)
      | _, _ => NaN
      end
  end.

(** True division.  A finite value over zero is nan when the numerator is
    zero and an infinity of the numerator's sign otherwise (the zeros that
    arise from integer data are positive). *)
Definition fdiv (x y : pyfloat) : pyfloat :=
  match x, y with
  | NaN, _ | _, NaN => NaN
  | Fin a, Fin b =>
      if Qeq_bool b 0 then inf_of (Qcompare a 0) else Fin (Qdiv a b)
  | Fin _, _ => Fin 0
  | _, Fin b =>
      match fsign x with
      | Some s => inf_of (match Qcompare b 0 with Lt => CompOpp s | _ => s end)
      | None => NaN
      end
  | _, _ => NaN
  end.

Module Series.

(** [series.sum()] of an integer column; 0 on the empty series. *)
Definition sum (l : list Z) : Z := fold_right Z.add 0 l.

(** [series.mean()] of an integer column; nan on the empty series. *)
Definition mean (l : list Z) : pyfloat :=
  fdiv (of_int (sum l)) (of_int (Z.of_nat (List.length l))).

(** [series.pct_change()]: [data / data.shift(1) - 1]; the shifted series
    starts with nan. *)
Definition shift (l : list Z) : list pyfloat :=
  match l with
  | [] => []
  | _ => NaN :: map of_int (removelast l)
  end.

Definition pct_change (l : list Z) : list pyfloat :=
  map (fun p => fsub (fdiv (of_int (fst p)) (snd p)) (Fin 1))
      (combine l (shift l)).

End Series.

(* ------------------------------------------------------------------ *)
(** ** Keys, [unique], [sorted] and [groupby] *)

(** What pandas needs of a grouping key: equality and an order. *)
Class Key (K : Type) := {
  keqb : K -> K -> bool;
  kleb : K -> K -> bool
}.

(** [keqb] decides equality of keys. *)
Class KeyEq (K : Type) `{Key K} : Prop :=
  keqb_eq : forall a b : K, keqb a b = true <-> a = b.

#[export] Instance Key_Z : Key Z := {| keqb := Z.eqb; kleb := Z.leb |}.

#[export] Instance Key_string : Key string :=
  {| keqb := String.eqb; kleb := String.leb |}.

Section KeyPair.
Context {A B : Type} `{Key A} `{Key B}.

Definition pair_eqb (x y : A * B) : bool :=
  keqb (fst x) (fst y) && keqb (snd x) (snd y).

(** Tuples compare lexicographically. *)
Definition pair_leb (x y : A * B) : bool :=
  if keqb (fst x) (fst y) then kleb (snd x) (snd y)
  else kleb (fst x) (fst y).

#[export] Instance Key_pair : Key (A * B) :=
  {| keqb := pair_eqb; kleb := pair_leb |}.
End KeyPair.

Section GroupBy.
Context {K : Type} `{Key K}.

(** [series.unique()]: distinct values in order of first appearance. *)
Fixpoint unique (l : list K) : list K :=
  match l with
  | [] => []
  | x :: t => x :: filter (fun y => negb (keqb y x)) (unique t)
  end.

(** [series.nunique()] *)
Definition nunique (l : list K) : nat := List.length (unique l).

Fixpoint insert (k : K) (l : list K) : list K :=
  match l with
  | [] => [k]
  | x :: t => if kleb k x then k :: l else x :: insert k t
  end.

(** [sorted(...)], ascending. *)
Definition sorted (l : list K) : list K := fold_right insert [] l.

(** The group keys of [df.groupby(key)]: distinct, in ascending order. *)
Definition group_keys (key : Row -> K) (rs : list Row) : list K :=
  sorted (unique (map key rs)).

(** The rows of one group. *)
Definition group (key : Row -> K) (rs : list Row) (k : K) : list Row :=
  filter (fun r => keqb (key r) k) rs.

(** [df.groupby(key)]: each key with its rows. *)
Definition groupby (key : Row -> K) (rs : list Row) : list (K * list Row) :=
  map (fun k => (k, group key rs k)) (group_keys key rs).
End GroupBy.

(** One row of [groupby(key)['total_enrollment'].agg(['sum','mean','count'])
    .reset_index()]. *)
Record Agg (K : Type) := mkAgg {
  agg_key : K;
  Total_Enrollment : Z;
  Avg_Enrollment : pyfloat;
  Records : nat
}.
Arguments mkAgg {K}.
Arguments agg_key {K}.
Arguments Total_Enrollment {K}.
Arguments Avg_Enrollment {K}.
Arguments Records {K}.

Definition enrollments (rs : list Row) : list Z := map total_enrollment rs.

Definition agg_enrollment {K} `{Key K} (key : Row -> K) (rs : list Row)
  : list (Agg K) :=
  map (fun g => let v := enrollments (snd g) in
                mkAgg (fst g) (Series.sum v) (Series.mean v) (List.length v))
      (groupby key rs).

(** The grouped tables of the blocks. *)
Definition monthly_data (fd : DataFrame) := agg_enrollment month (rows fd).
Definition quarterly_data (fd : DataFrame) := agg_enrollment quarter (rows fd).
Definition dow_data (fd : DataFrame) := agg_enrollment day_of_week (rows fd).
Definition weekend_comparison (fd : DataFrame) :=
  agg_enrollment is_weekend (rows fd).
Definition state_map_data (fd : DataFrame) := agg_enrollment state (rows fd).
Definition state_data (fd : DataFrame) := agg_enrollment state (rows fd).
Definition district_data (fd : DataFrame) :=
  agg_enrollment (fun r => (state r, district r)) (rows fd).
Definition yearly_data (fd : DataFrame) := agg_enrollment year (rows fd).


(** [nlargest(1, 'Total_Enrollment')] and [nsmallest(1, ...)]: at most one
    row, the first one among equals. *)
Section Ranking.
Context {K : Type}.

Fixpoint argbest (better : Z -> Z -> bool) (best : Agg K)
    (l : list (Agg K)) : Agg K :=
  match l with
  | [] => best
  | a :: t =>
      argbest better
        (if better (Total_Enrollment a) (Total_Enrollment best)
         then a else best) t
  end.

Definition nlargest1 (l : list (Agg K)) : list (Agg K) :=
  match l with [] => [] | a :: t => [argbest Z.gtb a t] end.

Definition nsmallest1 (l : list (Agg K)) : list (Agg K) :=
  match l with [] => [] | a :: t => [argbest Z.ltb a t] end.

Fixpoint insert_desc (a : Agg K) (l : list (Agg K)) : list (Agg K) :=
  match l with
  | [] => [a]
  | x :: t =>
      if Total_Enrollment x <=? Total_Enrollment a
      then a :: l else x :: insert_desc a t
  end.

(** [sort_values('Total_Enrollment', ascending=False)].  pandas sorts with
    an unstable quicksort by default, so the order it leaves among rows with
    equal totals is not fixed; this insertion sort keeps them in table
    order, and nothing below depends on the order among equals. *)
Definition sort_values_desc (l : list (Agg K)) : list (Agg K) :=
  fold_right insert_desc [] l.

(** [df.head(n)] *)
Definition head (n : nat) (l : list (Agg K)) : list (Agg K) := firstn n l.
End Ranking.

(* ------------------------------------------------------------------ *)
(** ** Rendering

    The elements a run hands to Streamlit.  Static decoration (titles,
    rules, the style sheet, column layout) carries no data and is left out,
    except inside the minor-versus-adult split (lines 650-678), whose rule,
    sub-header and heading are kept: they are what the page shows between
    the guard of line 650 and the column read of line 654.  Labels are
    written without their pictographs, and numbers are kept as values rather
    than as the text the format strings make of them.  Chart constructors
    are external and total: a chart is its title with the table it is drawn
    from. *)

Inductive Value :=
| VInt (z : Z)
| VFloat (x : pyfloat)
| VStd (variance : pyfloat)   (* a standard deviation, given by its square *)
| VStr (s : string).

Inductive Level := Info | Success | Warning.

Inductive Elem :=
| Note (lvl : Level) (msg : string) (args : list Value)
| Metric (label : string) (value : Value) (delta : option Value)
| Text (msg : string) (args : list Value)
| Subheader (title : string)
| Table (cols : list string) (body : list (list Value))
| Plot (title : string) (cols : list string) (body : list (list Value))
| Download (file_name : string) (data : string).

Inductive Exc := IndexError | KeyError (c : string).

(** A run: the elements rendered so far, and either the exception that
    ended the run or a result. *)
Definition Run (A : Type) : Type := list Elem * (Exc + A).

Definition ret {A} (a : A) : Run A := ([], inr a).

Definition raise {A} (e : Exc) : Run A := ([], inl e).

Definition emit (e : Elem) : Run unit := ([e], inr tt).

Definition bind {A B} (m : Run A) (k : A -> Run B) : Run B :=
  match m with
  | (out, inl e) => (out, inl e)
  | (out, inr a) => let (out', r) := k a in (out ++ out', r)
  end.

Notation "x <- m ;; k" := (bind m (fun x => k))
  (at level 61, m at next level, right associativity).
Notation "m ;; k" := (bind m (fun _ => k))
  (at level 61, right associativity).

(** What a run rendered, and how it ended. *)
Definition rendered {A} (m : Run A) : list Elem := fst m.
Definition outcome {A} (m : Run A) : Exc + A := snd m.

(** [df.iloc[0]] *)
Definition iloc0 {A} (l : list A) : Run A :=
  match l with
  | [] => raise IndexError
  | x :: _ => ret x
  end.

(** A key as table cells. *)
Class Cells (K : Type) := cells : K -> list Value.
#[export] Instance Cells_Z : Cells Z := fun z => [VInt z].
#[export] Instance Cells_string : Cells string := fun s => [VStr s].
#[export] Instance Cells_pair {A B} `{Cells A} `{Cells B} : Cells (A * B) :=
  fun p => cells (fst p) ++ cells (snd p).

Definition VNat (n : nat) : Value := VInt (Z.of_nat n).

(** Rows of a grouped table with and without the record count. *)
Definition agg_row3 {K} `{Cells K} (a : Agg K) : list Value :=
  cells (agg_key a)
    ++ [VInt (Total_Enrollment a); VFloat (Avg_Enrollment a); VNat (Records a)].

Definition agg_row2 {K} `{Cells K} (a : Agg K) : list Value :=
  cells (agg_key a) ++ [VInt (Total_Enrollment a); VFloat (Avg_Enrollment a)].


(* ------------------------------------------------------------------ *)
(** ** Column access and further reductions *)

Fixpoint index_of (c : string) (l : list string) : option nat :=
  match l with
  | [] => None
  | x :: t => if String.eqb c x then Some 0%nat
              else option_map S (index_of c t)
  end.

(** [c in df.columns] *)
Definition has_column (df : DataFrame) (c : string) : bool :=
  existsb (String.eqb c) (columns df).

(** The reader of an integer column, when the frame has the column. *)
Definition int_reader (df : DataFrame) (c : string) : option (Row -> Z) :=
  if String.eqb c "year" then Some year
  else if String.eqb c "quarter" then Some quarter
  else if String.eqb c "month" then Some month
  else if String.eqb c "day_of_week" then Some day_of_week
  else if String.eqb c "is_weekend" then Some is_weekend
  else if String.eqb c "total_enrollment" then Some total_enrollment
  else option_map (fun i r => nth i (extras r) 0)
                  (index_of c (extra_columns df)).

(** The reader of any column, as cells. *)
Definition reader (df : DataFrame) (c : string) : option (Row -> Value) :=
  if String.eqb c "state" then Some (fun r => VStr (state r))
  else if String.eqb c "district" then Some (fun r => VStr (district r))
  else option_map (fun f r => VInt (f r)) (int_reader df c).

(** [df[c]] for an integer column [c]; a missing column is a [KeyError]. *)
Definition getitem (df : DataFrame) (c : string) : Run (list Z) :=
  match int_reader df c with
  | Some f => ret (map f (rows df))
  | None => raise (KeyError c)
  end.

(** [df[cols]]: projection on a list of columns, in the order asked. *)
Fixpoint readers (df : DataFrame) (cols : list string)
  : Run (list (Row -> Value)) :=
  match cols with
  | [] => ret []
  | c :: t =>
      match reader df c with
      | Some f => fs <- readers df t ;; ret (f :: fs)
      | None => raise (KeyError c)
      end
  end.

Definition project (df : DataFrame) (cols : list string)
  : Run (list (list Value)) :=
  fs <- readers df cols ;;
  ret (map (fun r => map (fun f => f r) fs) (rows df)).

Module Stats.

Definition is_nan (x : pyfloat) : bool :=
  match x with NaN => true | _ => false end.

(** [series.mean()] of a float column: nan entries are skipped. *)
Definition fmean (l : list pyfloat) : pyfloat :=
  let v := filter (fun x => negb (is_nan x)) l in
  fdiv (fold_right fadd (Fin 0) v) (of_int (Z.of_nat (List.length v))).

(** [series.max()] and [series.min()]: nan on the empty series. *)
Definition max (l : list Z) : Value :=
  match l with
  | [] => VFloat NaN
  | x :: t => VInt (fold_left Z.max t x)
  end.

Definition min (l : list Z) : Value :=
  match l with
  | [] => VFloat NaN
  | x :: t => VInt (fold_left Z.min t x)
  end.

(** [series.median()] *)
Definition median (l : list Z) : pyfloat :=
  let s := sorted l in
  let n := List.length s in
  match n with
  | O => NaN
  | _ =>
      if Nat.odd n then of_int (nth (n / 2) s 0)
      else fdiv (of_int (nth (n / 2 - 1) s 0 + nth (n / 2) s 0)) (Fin 2)
  end.

(** The square of [series.std()]: the sample variance, nan for fewer
    than two values. *)
Definition variance (l : list Z) : pyfloat :=
  match Series.mean l with
  | Fin m =>
      let d := map (fun x => Qminus (inject_Z x) m) l in
      fdiv (Fin (fold_right Qplus 0%Q (map (fun q => Qmult q q) d)))
           (of_int (Z.of_nat (List.length l) - 1))
  | _ => NaN
  end.

End Stats.

(* ------------------------------------------------------------------ *)
(** ** CSV export: [df.to_csv(index=False).encode('utf-8')]

    Strings stand for their UTF-8 bytes, so the text written is the encoded
    file.  The four characters below are single bytes that occur in UTF-8
    only as themselves. *)

Module Csv.

Definition dquote : ascii := "034"%char.
Definition comma : ascii := ","%char.
Definition LF : ascii := "010"%char.
Definition CR : ascii := "013"%char.

(** pandas writes through [csv.writer] with minimal quoting and the line
    terminator of the platform, a line feed.  A field is quoted when it
    holds the delimiter, the quote mark or a character of the line
    terminator; the writer of Python 3.11 leaves a carriage return bare. *)
Definition special (c : ascii) : bool :=
  Ascii.eqb c comma || Ascii.eqb c dquote || Ascii.eqb c LF.

Fixpoint needs_quote (s : string) : bool :=
  match s with
  | EmptyString => false
  | String c t => special c || needs_quote t
  end.

(** Quote marks inside a quoted field are doubled. *)
Fixpoint escape (s : string) : string :=
  match s with
  | EmptyString => EmptyString
  | String c t =>
      if Ascii.eqb c dquote then String c (String c (escape t))
      else String c (escape t)
  end.

(** Minimal quoting. *)
Definition field (s : string) : string :=
  if needs_quote s
  then String dquote (escape s ++ String dquote EmptyString)
  else s.

Fixpoint join (fs : list string) : string :=
  match fs with
  | [] => EmptyString
  | [f] => f
  | f :: t => f ++ String comma (join t)
  end.

(** One record.  A record of a single empty field would be an empty line;
    the writer puts two quote marks instead. *)
Definition line (fs : list string) : string :=
  match fs with
  | [EmptyString] => String dquote (String dquote (String LF EmptyString))
  | _ => join (map field fs) ++ String LF EmptyString
  end.

(** The writer puts out one line after the other. *)
Fixpoint write (table : list (list string)) : string :=
  match table with
  | [] => EmptyString
  | fs :: t => line fs ++ write t
  end.

Definition str_of_Z (z : Z) : string :=
  NilZero.string_of_int (Z.to_int z).

(** The text of one record, column by column. *)
Definition record (df : DataFrame) (r : Row) : list string :=
  [state r; district r; str_of_Z (year r); str_of_Z (quarter r);
   str_of_Z (month r); str_of_Z (day_of_week r); str_of_Z (is_weekend r);
   str_of_Z (total_enrollment r)]
  ++ map (fun i => str_of_Z (nth i (extras r) 0))
         (seq 0 (List.length (extra_columns df))).

(** Header row first, no index column. *)
Definition table (df : DataFrame) : list (list string) :=
  columns df :: map (record df) (rows df).

Definition to_csv (df : DataFrame) : string := write (table df).

(** *** Reading: [pd.read_csv]

    The script reads its data with [pd.read_csv] (line 57), and pandas is
    what loads an exported file again.  Its tokenizer is the usual
    four-state scanner.  Outside quotes a comma ends a field and a line
    feed or a carriage return ends the record; an empty line is skipped;
    inside quotes every character but the quote mark belongs to the field
    and a doubled quote mark is one quote mark; a quote mark inside an
    unquoted field, and any other character after a closing quote mark, is
    taken as it stands.  A file that ends inside quotes is refused. *)

Inductive mode := Start | Unquoted | Quoted | QuoteSeen.

(** The field read so far is kept last character first. *)
Definition text (fld : list ascii) : string :=
  string_of_list_ascii (rev fld).

Definition is_eol (c : ascii) : bool := Ascii.eqb c LF || Ascii.eqb c CR.

(** A separator ends the current field: a comma moves on within the
    record, an end of line closes the record. *)
Definition end_field (sep : ascii) (fld : list ascii) (row : list string)
    (done : list (list string))
  : list string * list (list string) :=
  if Ascii.eqb sep comma then (text fld :: row, done)
  else ([], rev (text fld :: row) :: done).

Fixpoint read_from (st : mode) (fld : list ascii) (row : list string)
    (done : list (list string)) (s : string)
  : option (list (list string)) :=
  match s with
  | EmptyString =>
      match st, row with
      | Quoted, _ => None
      | Start, [] => Some (rev done)
      | _, _ => Some (rev (rev (text fld :: row) :: done))
      end
  | String c t =>
      match st with
      | Start =>
          if is_eol c then
            match row with
            | [] => read_from Start [] [] done t
            | _ => let (row', done') := end_field c fld row done in
                   read_from Start [] row' done' t
            end
          else if Ascii.eqb c comma then
            let (row', done') := end_field c fld row done in
            read_from Start [] row' done' t
          else if Ascii.eqb c dquote then read_from Quoted [] row done t
          else read_from Unquoted (c :: fld) row done t
      | Unquoted =>
          if Ascii.eqb c comma || is_eol c then
            let (row', done') := end_field c fld row done in
            read_from Start [] row' done' t
          else read_from Unquoted (c :: fld) row done t
      | Quoted =>
          if Ascii.eqb c dquote then read_from QuoteSeen fld row done t
          else read_from Quoted (c :: fld) row done t
      | QuoteSeen =>
          if Ascii.eqb c dquote then read_from Quoted (c :: fld) row done t
          else if Ascii.eqb c comma || is_eol c then
            let (row', done') := end_field c fld row done in
            read_from Start [] row' done' t
          else read_from Unquoted (c :: fld) row done t
      end
  end.

(** The records of a text, fields as text. *)
Definition read (s : string) : option (list (list string)) :=
  read_from Start [] [] [] s.










(** A carriage return that the writer leaves outside quotes. *)
Fixpoint has_CR (s : string) : bool :=
  match s with
  | EmptyString => false
  | String c t => Ascii.eqb c CR || has_CR t
  end.

Definition bare_CR (s : string) : bool := has_CR s && negb (needs_quote s).

(** The separators the writer puts after a field. *)
Definition is_sep (c : ascii) : Prop := c = comma \/ c = LF.

(** The characters of [s], read after [fld]. *)
Definition after (fld : list ascii) (s : string) : list ascii :=
  rev (list_ascii_of_string s) ++ fld.

End Csv.


(* ------------------------------------------------------------------ *)
(** ** Widgets in the page body *)

(** [st.selectbox(options=...)]: the option picked, the first one unless
    the user chose another, [None] when there is nothing to choose. *)
Definition selectbox {A} (options : list A) (pick : nat) : option A :=
  nth_error options (if (pick <? List.length options)%nat then pick else 0%nat).

(** [st.multiselect(..., default=...)]: the default until the user edits
    the selection. *)
Definition multiselect {A} (default : list A) (pick : option (list A))
  : list A :=
  match pick with
  | None => default
  | Some l => l
  end.

Record Widgets := mkWidgets {
  map_state_pick : nat;                        (* line 416 *)
  compare_states_pick : option (list string);  (* line 698 *)
  columns_pick : option (list string);         (* line 772 *)
  metric_pick : nat                            (* line 806 *)
}.

(* ------------------------------------------------------------------ *)
(** ** The blocks of the page, in source order *)

(** Display filter status (lines 145-148). *)
Definition filter_status (data fd : DataFrame) : Run unit :=
  if (len fd <? len data)%nat
  then emit (Note Info "Showing records out of total records (filtered)"
               [VNat (len fd); VNat (len data)])
  else emit (Note Success "Showing all records" [VNat (len data)]).

(** Key Performance Indicators (lines 154-196). *)
Definition kpis (fd : DataFrame) : Run unit :=
  let total_enrollment := Series.sum (enrollments (rows fd)) in
  emit (Metric "Total Enrollments" (VInt total_enrollment) None) ;;
  let avg_enrollment := Series.mean (enrollments (rows fd)) in
  emit (Metric "Average Enrollment" (VFloat avg_enrollment) None) ;;
  let total_states := nunique (map state (rows fd)) in
  emit (Metric "Total States" (VNat total_states) None) ;;
  let total_districts := nunique (map district (rows fd)) in
  emit (Metric "Total Districts" (VNat total_districts) None) ;;
  let total_records := len fd in
  emit (Metric "Total Records" (VNat total_records) None).

(** The fixed day names of line 287; other integers map to nan. *)
Definition Day_Name (d : Z) : Value :=
  match d with
  | 0 => VStr "Monday"
  | 1 => VStr "Tuesday"
  | 2 => VStr "Wednesday"
  | 3 => VStr "Thursday"
  | 4 => VStr "Friday"
  | 5 => VStr "Saturday"
  | 6 => VStr "Sunday"
  | _ => VFloat NaN
  end.

(** The [Type] column of line 303. *)
Definition weekend_Type (w : Z) : Value :=
  match w with
  | 0 => VStr "Weekday"
  | 1 => VStr "Weekend"
  | _ => VFloat NaN
  end.

(** [weekend_comparison.loc[weekend_comparison['Type'] == name]] *)
Definition of_Type (name : string) (t : list (Agg Z)) : list (Agg Z) :=
  filter (fun a => match weekend_Type (agg_key a) with
                   | VStr s => String.eqb s name
                   | _ => false
                   end) t.

(** One of the two averages of lines 311-331. *)
Definition day_type_metric (label : string) (df : list (Agg Z)) : Run unit :=
  if (0 <? List.length df)%nat
  then a <- iloc0 df ;; emit (Metric label (VFloat (Avg_Enrollment a)) None)
  else emit (Metric label (VStr "N/A") None).

(** Temporal Analysis (lines 205-331). *)
Definition temporal (fd : DataFrame) : Run unit :=
  let monthly := monthly_data fd in
  emit (Plot "Monthly Enrollment Analysis"
          ["Month"; "Total_Enrollment"; "Avg_Enrollment"]
          (map agg_row2 monthly)) ;;
  emit (Table ["Month"; "Total_Enrollment"; "Avg_Enrollment"; "Records"]
          (map agg_row3 monthly)) ;;
  let quarterly := quarterly_data fd in
  emit (Plot "Total Enrollment by Quarter"
          ["Quarter"; "Total_Enrollment"; "Avg_Enrollment"]
          (map agg_row2 quarterly)) ;;
  emit (Plot "Enrollment Distribution by Quarter"
          ["Quarter"; "Total_Enrollment"; "Avg_Enrollment"]
          (map agg_row2 quarterly)) ;;
  let dow := dow_data fd in
  emit (Plot "Average Enrollment by Day of Week"
          ["Day_of_Week"; "Total_Enrollment"; "Avg_Enrollment"; "Day_Name"]
          (map (fun a => agg_row2 a ++ [Day_Name (agg_key a)]) dow)) ;;
  let comparison := weekend_comparison fd in
  let weekday_df := of_Type "Weekday" comparison in
  day_type_metric "Weekday Avg Enrollment" weekday_df ;;
  let weekend_df := of_Type "Weekend" comparison in
  day_type_metric "Weekend Avg Enrollment" weekend_df.

(** Python truth value of the select box result at line 421. *)
Definition truthy (s : option string) : option string :=
  match s with
  | Some EmptyString => None
  | other => other
  end.

(** [district_summary] of lines 423-426. *)
Definition district_summary (fd : DataFrame) (selected_map_state : string)
  : list (Agg string) :=
  let state_district_data :=
    mask (fun r => String.eqb (state r) selected_map_state) fd in
  sort_values_desc (agg_enrollment district (rows state_district_data)).

(** [for idx, row in table.iterrows(): body] *)
Fixpoint iterrows {A} (body : A -> Run unit) (l : list A) : Run unit :=
  match l with
  | [] => ret tt
  | a :: t => body a ;; iterrows body t
  end.

(** The district drill-down of lines 421-516. *)
Definition district_view (fd : DataFrame) (selected_map_state : string)
  : Run unit :=
  let summary := district_summary fd selected_map_state in
  emit (Plot "Top 30 Districts Treemap"
          ["District"; "Total_Enrollment"; "Avg_Enrollment"; "Records"]
          (map agg_row3 (head 30 summary))) ;;
  emit (Plot "Top 20 Districts Hierarchy"
          ["District"; "Total_Enrollment"; "Avg_Enrollment"; "Records"; "state"]
          (map (fun a => agg_row3 a ++ [VStr selected_map_state])
               (head 20 summary))) ;;
  emit (Note Info "Treemap and Sunburst sizes represent enrollment volume" []) ;;
  emit (Plot "Top 20 Districts"
          ["District"; "Total_Enrollment"; "Avg_Enrollment"; "Records"]
          (map agg_row3 (head 20 summary))) ;;
  emit (Metric "Total Districts" (VNat (List.length summary)) None) ;;
  emit (Metric "Total Enrollments"
          (VInt (Series.sum (map Total_Enrollment summary))) None) ;;
  emit (Metric "Average per District"
          (VFloat (Stats.fmean (map Avg_Enrollment summary))) None) ;;
  iterrows (fun row =>
              emit (Text "District" [VStr (agg_key row)]) ;;
              emit (Text "enrollments" [VInt (Total_Enrollment row)]))
           (head 5 summary) ;;
  emit (Table ["District"; "Total_Enrollment"; "Avg_Enrollment"; "Records"]
          (map agg_row3 summary)).

(** Interactive India Map (lines 346-516). *)
Definition geographic_map (fd : DataFrame) (w : Widgets) : Run unit :=
  let map_data := state_map_data fd in
  emit (Plot "Total Enrollment by State - Interactive Map"
          ["state"; "Total_Enrollment"; "Avg_Enrollment"; "Records"]
          (map agg_row3 map_data)) ;;
  top_state <- iloc0 (nlargest1 map_data) ;;
  emit (Metric "Highest Enrollment State" (VStr (agg_key top_state))
          (Some (VInt (Total_Enrollment top_state)))) ;;
  bottom_state <- iloc0 (nsmallest1 map_data) ;;
  emit (Metric "Lowest Enrollment State" (VStr (agg_key bottom_state))
          (Some (VInt (Total_Enrollment bottom_state)))) ;;
  let avg_state_enrollment := Series.mean (map Total_Enrollment map_data) in
  emit (Metric "Average per State" (VFloat avg_state_enrollment) None) ;;
  let selected_map_state :=
    selectbox (sorted (unique (map state (rows fd)))) (map_state_pick w) in
  match truthy selected_map_state with
  | Some s => district_view fd s
  | None => ret tt
  end.

(** State-wise Analysis (lines 518-552). *)
Definition geographic_states (fd : DataFrame) : Run unit :=
  let state_data := sort_values_desc (state_data fd) in
  let top_states := head 15 state_data in
  emit (Plot "Top 15 States by Total Enrollment"
          ["State"; "Total_Enrollment"; "Avg_Enrollment"; "Records"]
          (map agg_row3 top_states)) ;;
  emit (Metric "Total States" (VNat (List.length state_data)) None) ;;
  emit (Metric "Highest Enrollment"
          (Stats.max (map Total_Enrollment state_data)) None) ;;
  first <- iloc0 state_data ;;
  emit (Metric "Top State" (VStr (agg_key first)) None) ;;
  iterrows (fun row =>
              emit (Text "State"
                      [VStr (agg_key row); VInt (Total_Enrollment row)]))
           (head 5 state_data) ;;
  emit (Table ["State"; "Total_Enrollment"; "Avg_Enrollment"; "Records"]
          (map agg_row3 state_data)).

(** District-wise Analysis (lines 554-589). *)
Definition geographic_districts (fd : DataFrame) : Run unit :=
  let district_data := sort_values_desc (district_data fd) in
  let top_districts := head 20 district_data in
  emit (Plot "Top 20 Districts by Total Enrollment"
          ["State"; "District"; "Total_Enrollment"; "Avg_Enrollment";
           "Records"; "State_District"]
          (map (fun a => agg_row3 a
                  ++ [VStr (fst (agg_key a) ++ " - " ++ snd (agg_key a))])
               top_districts)) ;;
  emit (Metric "Total Districts" (VNat (List.length district_data)) None) ;;
  first <- iloc0 district_data ;;
  emit (Metric "Top District" (VStr (snd (agg_key first))) None) ;;
  emit (Metric "Highest Enrollment"
          (Stats.max (map Total_Enrollment district_data)) None) ;;
  emit (Table ["State"; "District"; "Total_Enrollment"; "Avg_Enrollment";
               "Records"]
          (map agg_row3 district_data)).

Definition geographic (fd : DataFrame) (w : Widgets) : Run unit :=
  geographic_map fd w ;;
  geographic_states fd ;;
  geographic_districts fd.


(** Minor percentage (line 677). *)
Definition minor_percentage (total_minors total_adults : Z) : pyfloat :=
  fmul (fdiv (of_int total_minors) (of_int (total_minors + total_adults)))
       (Fin 100).

(** Minor vs Adult analysis (lines 650-678). *)
Definition minor_adult (fd : DataFrame) (age_18_total : Z) : Run unit :=
  if has_column fd "minor_dount" then
    emit (Text "---" []) ;;
    emit (Subheader "Minor vs Adult Enrollment") ;;
    minor_count <- getitem fd "minor_count" ;;
    let total_minors := Series.sum minor_count in
    let total_adults := age_18_total in
    emit (Plot "Minor vs Adult Distribution" ["Category"; "Count"]
            [[VStr "Minors (0-17)"; VInt total_minors];
             [VStr "Adults (18+)"; VInt total_adults]]) ;;
    emit (Text "#### Statistics" []) ;;
    emit (Metric "Total Minors" (VInt total_minors) None) ;;
    emit (Metric "Total Adults" (VInt total_adults) None) ;;
    emit (Metric "Minor Percentage"
            (VFloat (minor_percentage total_minors total_adults)) None)
  else ret tt.

(** Demographic Analysis (lines 597-681). *)
Definition demographic (fd : DataFrame) : Run unit :=
  if has_column fd "age_0_5" then
    age_0_5 <- getitem fd "age_0_5" ;;
    let age_0_5_total := Series.sum age_0_5 in
    age_5_17 <- getitem fd "age_5_17" ;;
    let age_5_17_total := Series.sum age_5_17 in
    age_18_greater <- getitem fd "age_18_greater" ;;
    let age_18_total := Series.sum age_18_greater in
    let age_distribution :=
      [[VStr "0-5 years"; VInt age_0_5_total];
       [VStr "5-17 years"; VInt age_5_17_total];
       [VStr "18+ years"; VInt age_18_total]] in
    emit (Plot "Age Group Distribution" ["Age_Group"; "Count"]
            age_distribution) ;;
    emit (Plot "Enrollment Count by Age Group" ["Age_Group"; "Count"]
            age_distribution) ;;
    emit (Metric "Age 0-5" (VInt age_0_5_total) None) ;;
    emit (Metric "Age 5-17" (VInt age_5_17_total) None) ;;
    emit (Metric "Age 18+" (VInt age_18_total) None) ;;
    minor_adult fd age_18_total
  else
    emit (Note Warning "Age group data not available in filtered dataset" []).

(** One row of [state_stats] (line 719). *)
Definition stats_row (g : string * list Row) : list Value :=
  let v := enrollments (snd g) in
  [VStr (fst g); VInt (Series.sum v); VFloat (Series.mean v);
   VFloat (Stats.median v); VStd (Stats.variance v)].

(** Compare Multiple States (lines 694-722). *)
Definition state_comparison (fd : DataFrame) (w : Widgets) : Run unit :=
  let options := sorted (unique (map state (rows fd))) in
  let compare_states :=
    multiselect (firstn 3 options) (compare_states_pick w) in
  if (0 <? List.length compare_states)%nat then
    let compare_data := mask (fun r => isin_str compare_states (state r)) fd in
    let monthly_compare :=
      map (fun g => cells (fst g) ++ [VInt (Series.sum (enrollments (snd g)))])
          (groupby (fun r => (state r, month r)) (rows compare_data)) in
    emit (Plot "Monthly Enrollment Comparison"
            ["state"; "month"; "total_enrollment"] monthly_compare) ;;
    let state_stats := map stats_row (groupby state (rows compare_data)) in
    emit (Table ["State"; "Total"; "Mean"; "Median"; "Std Dev"] state_stats)
  else ret tt.

(** The column [Growth_%] of line 734. *)
Definition Growth_pct (totals : list Z) : list pyfloat :=
  map (fun g => fmul g (Fin 100)) (Series.pct_change totals).

(** What the year-over-year tab shows: the table with its growth column, or
    the hint that more years are needed. *)
Definition yoy_table (fd : DataFrame) : option (list (Agg Z * pyfloat)) :=
  let yearly := yearly_data fd in
  if (1 <? List.length yearly)%nat
  then Some (combine yearly (Growth_pct (map Total_Enrollment yearly)))
  else None.

(** Year-over-Year Analysis (lines 726-756). *)
Definition year_over_year (fd : DataFrame) : Run unit :=
  match yoy_table fd with
  | Some yearly =>
      let body := map (fun p => agg_row2 (fst p) ++ [VFloat (snd p)]) yearly in
      let cols := ["Year"; "Total_Enrollment"; "Avg_Enrollment"; "Growth_%"] in
      emit (Plot "Total Enrollment by Year" cols body) ;;
      emit (Plot "Year-over-Year Growth Rate (%)" cols body) ;;
      emit (Table cols body)
  | None =>
      emit (Note Info "Multiple years needed for year-over-year comparison" [])
  end.

Definition comparative (fd : DataFrame) (w : Widgets) : Run unit :=
  state_comparison fd w ;;
  year_over_year fd.

(** Data Explorer (lines 766-790). *)
Definition explorer (fd : DataFrame) (w : Widgets) : Run unit :=
  let all_columns := columns fd in
  let selected_columns := multiselect (firstn 10 all_columns) (columns_pick w) in
  if (0 <? List.length selected_columns)%nat then
    projected <- project fd selected_columns ;;
    let display_df := firstn 100 projected in
    emit (Table selected_columns display_df) ;;
    let csv := Csv.to_csv fd in
    emit (Download "aadhaar_enrollment_filtered.csv" csv)
  else ret tt.

(** [select_dtypes(include=[np.number]).columns] *)
Definition numerical_cols (fd : DataFrame) : list string :=
  ["year"; "quarter"; "month"; "day_of_week"; "is_weekend"; "total_enrollment"]
  ++ extra_columns fd.

(** Statistical Summary (lines 800-829). *)
Definition statistical (fd : DataFrame) (w : Widgets) : Run unit :=
  let cols := numerical_cols fd in
  if (0 <? List.length cols)%nat then
    match selectbox cols (metric_pick w) with
    | Some selected_metric =>
        v <- getitem fd selected_metric ;;
        emit (Plot "Distribution" [selected_metric] (map (fun z => [VInt z]) v)) ;;
        emit (Metric "Mean" (VFloat (Series.mean v)) None) ;;
        emit (Metric "Median" (VFloat (Stats.median v)) None) ;;
        emit (Metric "Std Dev" (VStd (Stats.variance v)) None) ;;
        emit (Metric "Min" (Stats.min v) None) ;;
        emit (Metric "Max" (Stats.max v) None)
    | None => ret tt
    end
  else ret tt.

(** The blocks that follow the filter, in page order. *)
Definition dashboard (data fd : DataFrame) (w : Widgets) : Run unit :=
  filter_status data fd ;;
  kpis fd ;;
  temporal fd ;;
  geographic fd w ;;
  demographic fd ;;
  comparative fd w ;;
  explorer fd w ;;
  statistical fd w.

(** One run of the script. *)
Definition app (data : DataFrame) (sel : Selection) (w : Widgets) : Run unit :=
  dashboard data (filtered_data data sel) w.


(* ------------------------------------------------------------------ *)
(** ** Year-over-year growth, in the words of the specification *)

Module GrowthSpec.

(** (this year total - previous year total) / previous year total x 100 *)
Definition growth (previous this : Z) : pyfloat :=
  fmul (fdiv (fsub (of_int this) (of_int previous)) (of_int previous))
       (Fin 100).

End GrowthSpec.


(* ------------------------------------------------------------------ *)
(** ** Minor percentage, in the words of the specification *)

Module MinorSpec.



End MinorSpec.


(* ------------------------------------------------------------------ *)
(** ** The explorer table, in the words of the specification *)

Module ExplorerSpec.





End ExplorerSpec.


(* ------------------------------------------------------------------ *)
(** ** Auxiliary definitions used in the statements and proofs *)

(** The four masks of the filter as one test on a record. *)
Definition passes (sel : Selection) (r : Row) : bool :=
  (has_All_str (selected_states sel)
   || negb (0 <? List.length (selected_states sel))%nat
   || isin_str (selected_states sel) (state r))
  && (has_All (selected_years sel)
      || negb (0 <? List.length (selected_years sel))%nat
      || isin (selected_years sel) (year r))
  && (has_All (selected_quarters sel)
      || negb (0 <? List.length (selected_quarters sel))%nat
      || isin (selected_quarters sel) (quarter r))
  && match weekend_options sel with
     | WeekdayOnly => Z.eqb (is_weekend r) 0
     | WeekendOnly => Z.eqb (is_weekend r) 1
     | DayAll => true
     end.

(** Number of records over the groups of a table. *)
Definition total_records {K} (t : list (Agg K)) : nat :=
  fold_right Nat.add 0%nat (map Records t).

(** The three sidebar filters that precede the day-type filter. *)
Definition before_weekend (data : DataFrame) (ss : list string)
    (ys qs : list Choice) : DataFrame :=
  filter_quarters qs (filter_years ys (filter_states ss data)).

(** The sum of a measure, one group after the other. *)
Definition groupwise {K} `{Key K} (key : Row -> K) (v : Row -> Z)
    (rs : list Row) (ks : list K) : Z :=
  Series.sum (map (fun k => Series.sum (map v (group key rs k))) ks).

(** Sum of the [Total_Enrollment] column of a grouped table. *)
Definition grand_total {K} (t : list (Agg K)) : Z :=
  Series.sum (map Total_Enrollment t).

(** Each value paired with its predecessor. *)
Fixpoint with_previous (prev : Z) (l : list Z) : list (Z * pyfloat) :=
  match l with
  | [] => []
  | c :: t => (c, of_int prev) :: with_previous c t
  end.

(** A run that reaches its end. *)
Definition completes (m : Run unit) : Prop := outcome m = inr tt.


(** The elements of the age-group part of the demographic block (lines
    604-645). *)
Definition age_groups (a0 a5 a18 : Z) : list Elem :=
  let age_distribution :=
    [[VStr "0-5 years"; VInt a0]; [VStr "5-17 years"; VInt a5];
     [VStr "18+ years"; VInt a18]] in
  [Plot "Age Group Distribution" ["Age_Group"; "Count"] age_distribution;
   Plot "Enrollment Count by Age Group" ["Age_Group"; "Count"]
     age_distribution;
   Metric "Age 0-5" (VInt a0) None;
   Metric "Age 5-17" (VInt a5) None;
   Metric "Age 18+" (VInt a18) None].



(* ------------------------------------------------------------------ *)
(** ** Concrete data sets *)

Module Examples.

Definition sample_row (s dname : string) (y q m dow we tot : Z) : Row :=
  mkRow s dname y q m dow we tot [].

Definition sample_data : DataFrame :=
  mkDF [] [ sample_row "Goa" "North Goa" 2023 1 2 0 0 100;
            sample_row "Kerala" "Idukki" 2023 2 5 5 1 200;
            sample_row "Goa" "South Goa" 2024 2 4 6 1 50 ].

(** Every widget of the page body left as it first appears. *)
Definition untouched : Widgets := mkWidgets 0 None None 0.

(** Every sidebar filter at its default. *)
Definition everything : Selection := mkSel ["All"] [All] [All] DayAll.

(** One weekday record, looked at through the weekend-only filter. *)
Definition weekday_data : DataFrame :=
  mkDF [] [ sample_row "Goa" "North Goa" 2023 1 2 0 0 100 ].

Definition weekend_only : Selection := mkSel ["All"] [All] [All] WeekendOnly.

(** A file that carries one of the three age brackets. *)
Definition one_bracket_data : DataFrame :=
  mkDF ["age_0_5"] [ mkRow "Goa" "North Goa" 2023 1 2 0 0 100 [40] ].

(** A file with the three age brackets and the misspelt column, but no
    [minor_count]. *)
Definition misspelt_only_data : DataFrame :=
  mkDF ["age_0_5"; "age_5_17"; "age_18_greater"; "minor_dount"]
       [ mkRow "Goa" "North Goa" 2023 1 2 0 0 100 [40; 30; 30; 70] ].

(** The canonical schema with all optional columns. *)
Definition canonical_data : DataFrame :=
  mkDF ["age_0_5"; "age_5_17"; "age_18_greater"; "minor_count"]
       [ mkRow "Goa" "North Goa" 2023 1 2 0 0 100 [40; 30; 30; 70] ].





End Examples.


(* ------------------------------------------------------------------ *)
(** ** Options of the sidebar widgets (lines 72, 80, 88) *)

(** [['All'] + sorted(data['state'].unique().tolist())] *)
Definition states (data : DataFrame) : list string :=
  "All" :: sorted (unique (map state (rows data))).

(** [['All'] + sorted(data['year'].unique().tolist())] *)
Definition years (data : DataFrame) : list Choice :=
  All :: map Val (sorted (unique (map year (rows data)))).

(** [['All'] + sorted(data['quarter'].unique().tolist())] *)
Definition quarters (data : DataFrame) : list Choice :=
  All :: map Val (sorted (unique (map quarter (rows data)))).

(** The order of the keys, as a relation. *)
Definition kle {K} `{Key K} (a b : K) : Prop := kleb a b = true.

(** Rows in the order [sort_values(..., ascending=False)] leaves them. *)
Definition total_ge {K} (a b : Agg K) : Prop :=
  Total_Enrollment b <= Total_Enrollment a.

(** The states compared (line 698) and the two frames derived from them
    (lines 706 and 719), as [state_comparison] computes them. *)
Definition compare_states (fd : DataFrame) (w : Widgets) : list string :=
  multiselect (firstn 3 (sorted (unique (map state (rows fd)))))
              (compare_states_pick w).

Definition compare_data (fd : DataFrame) (w : Widgets) : DataFrame :=
  mask (fun r => isin_str (compare_states fd w) (state r)) fd.

Definition state_stats (fd : DataFrame) (w : Widgets) : list (list Value) :=
  map stats_row (groupby state (rows (compare_data fd w))).

(* ================================================================== *)
(** * Properties *)

(* ------------------------------------------------------------------ *)
(** ** Filter engine *)

Section FilterFacts.

Lemma Choice_eqb_eq (a b : Choice) : Choice_eqb a b = true <-> a = b.
Proof.
  destruct a as [|x], b as [|y]; simpl; split; intro H;
    try reflexivity; try discriminate.
  - apply Z.eqb_eq in H. now subst.
  - injection H as ->. apply Z.eqb_refl.
Qed.

Lemma has_All_str_In (sel : list string) :
  has_All_str sel = true <-> In "All" sel.
Proof.
  unfold has_All_str. rewrite existsb_exists. split.
  - intros [x [Hin Heq]]. apply String.eqb_eq in Heq. now subst.
  - intro Hin. exists "All". split; [assumption | apply String.eqb_refl].
Qed.

Lemma has_All_In (sel : list Choice) : has_All sel = true <-> In All sel.
Proof.
  unfold has_All. rewrite existsb_exists. split.
  - intros [x [Hin Heq]]. apply Choice_eqb_eq in Heq. now subst.
  - intro Hin. exists All. split; [assumption | now apply Choice_eqb_eq].
Qed.

Lemma isin_str_In (sel : list string) (s : string) :
  isin_str sel s = true <-> In s sel.
Proof.
  unfold isin_str. rewrite existsb_exists. split.
  - intros [x [Hin Heq]]. apply String.eqb_eq in Heq. now subst.
  - intro Hin. exists s. split; [assumption | apply String.eqb_refl].
Qed.

Lemma isin_In (sel : list Choice) (z : Z) :
  isin sel z = true <-> In (Val z) sel.
Proof.
  unfold isin. rewrite existsb_exists. split.
  - intros [x [Hin Heq]]. apply Choice_eqb_eq in Heq. now subst.
  - intro Hin. exists (Val z). split; [assumption | now apply Choice_eqb_eq].
Qed.

Lemma length_pos_nonnil {A} (l : list A) :
  (0 <? List.length l)%nat = true <-> l <> [].
Proof.
  destruct l; simpl; split; intro H; try reflexivity;
    try discriminate; congruence.
Qed.

(** Every stage keeps the schema. *)
Lemma filtered_data_columns data sel :
  extra_columns (filtered_data data sel) = extra_columns data.
Proof.
  unfold filtered_data, filter_states, filter_years, filter_quarters,
    filter_weekend.
  destruct (weekend_options sel);
    repeat match goal with
           | |- context [if ?b then _ else _] => destruct b
           end; reflexivity.
Qed.

Lemma In_filter_states sel fd r :
  In r (rows (filter_states sel fd)) <->
  In r (rows fd) /\ (sel = [] \/ In "All" sel \/ In (state r) sel).
Proof.
  unfold filter_states.
  destruct (has_All_str sel) eqn:HA; simpl.
  - apply has_All_str_In in HA. tauto.
  - assert (~ In "All" sel) as HnA
      by (rewrite <- has_All_str_In; congruence).
    destruct sel as [|s sel']; simpl negb.
    + simpl. tauto.
    + cbn [List.length Nat.ltb Nat.leb mask rows].
      rewrite filter_In, isin_str_In.
      split; [tauto|].
      intros [Hin [Hnil | [HAll | Hst]]]; try tauto; discriminate.
Qed.

Lemma In_filter_choice (proj : Row -> Z) sel fd r :
  In r (rows (if negb (has_All sel) && (0 <? List.length sel)%nat
              then mask (fun r => isin sel (proj r)) fd else fd)) <->
  In r (rows fd) /\ (sel = [] \/ In All sel \/ In (Val (proj r)) sel).
Proof.
  destruct (has_All sel) eqn:HA; simpl.
  - apply has_All_In in HA. tauto.
  - assert (~ In All sel) as HnA by (rewrite <- has_All_In; congruence).
    destruct sel as [|s sel'].
    + simpl. tauto.
    + cbn [List.length Nat.ltb Nat.leb mask rows].
      rewrite filter_In, isin_In.
      split; [tauto|].
      intros [Hin [Hnil | [HAll | Hst]]]; try tauto; discriminate.
Qed.

Lemma In_filter_weekend d fd r :
  In r (rows (filter_weekend d fd)) <->
  In r (rows fd) /\
  match d with
  | WeekdayOnly => is_weekend r = 0
  | WeekendOnly => is_weekend r = 1
  | DayAll => True
  end.
Proof.
  destruct d; simpl; try rewrite filter_In, Z.eqb_eq; tauto.
Qed.

End FilterFacts.

Lemma filter_all {A} (l : list A) : filter (fun _ => true) l = l.
Proof.
  induction l as [|a l IH]; simpl; congruence.
Qed.

Lemma filter_filter {A} (f g : A -> bool) (l : list A) :
  filter f (filter g l) = filter (fun x => g x && f x) l.
Proof.
  induction l as [|a l IH]; simpl; [reflexivity|].
  destruct (g a); simpl; [destruct (f a)|]; now rewrite IH.
Qed.

Lemma guarded_mask (guard : bool) (f : Row -> bool) (fd : DataFrame) :
  rows (if guard then mask f fd else fd)
  = filter (fun r => negb guard || f r) (rows fd).
Proof.
  destruct guard; simpl; [reflexivity | now rewrite filter_all].
Qed.

(** The filtered view is the data set with the records that fail a mask
    struck out: order and repetitions are kept. *)
Lemma filtered_data_filter (data : DataFrame) (sel : Selection) :
  rows (filtered_data data sel) = filter (passes sel) (rows data).
Proof.
  unfold filtered_data, filter_states, filter_years, filter_quarters.
  assert (Hw : forall fd, rows (filter_weekend (weekend_options sel) fd)
                 = filter (fun r => match weekend_options sel with
                                    | WeekdayOnly => Z.eqb (is_weekend r) 0
                                    | WeekendOnly => Z.eqb (is_weekend r) 1
                                    | DayAll => true
                                    end) (rows fd)).
  { intro fd. destruct (weekend_options sel); simpl;
      [now rewrite filter_all | reflexivity | reflexivity]. }
  rewrite Hw.
  set (s1 := if negb (has_All_str (selected_states sel)) && _ then _ else _).
  set (s2 := if negb (has_All (selected_years sel)) && _ then _ else _).
  rewrite (guarded_mask _ _ s2). subst s2.
  rewrite (guarded_mask _ _ s1). subst s1.
  rewrite (guarded_mask _ _ data).
  rewrite !filter_filter. apply filter_ext. intro r. unfold passes.
  rewrite !negb_andb, !negb_involutive, !andb_assoc. reflexivity.
Qed.

(** C1. The filtered view holds a record exactly when the record is in the
    data set and satisfies every active dimension predicate (state, year and
    quarter membership unless the selection is empty or holds the sentinel,
    and the day-type constraint); the view is therefore a subset of the data
    set, over the same columns, with the records that pass in their
    original order. *)
Theorem filtered_data_conjunction (data : DataFrame) (sel : Selection) :
  (forall r, In r (rows (filtered_data data sel)) <->
             In r (rows data) /\ FilterSpec.satisfies sel r)
  /\ incl (rows (filtered_data data sel)) (rows data)
  /\ columns (filtered_data data sel) = columns data
  /\ rows (filtered_data data sel) = filter (passes sel) (rows data).
Proof.
  assert (Hiff : forall r, In r (rows (filtered_data data sel)) <->
                           In r (rows data) /\ FilterSpec.satisfies sel r).
  { intro r. unfold filtered_data.
    rewrite In_filter_weekend.
    unfold filter_quarters, filter_years.
    rewrite (In_filter_choice quarter), (In_filter_choice year),
      In_filter_states.
    unfold FilterSpec.satisfies, FilterSpec.state_ok, FilterSpec.year_ok,
      FilterSpec.quarter_ok, FilterSpec.day_ok.
    tauto. }
  split; [|split; [|split; [|apply filtered_data_filter]]].
  - exact Hiff.
  - intros r Hr. now apply Hiff in Hr.
  - unfold columns. now rewrite filtered_data_columns.
Qed.

(** C4. Putting the sentinel into the state, year or quarter selection gives
    the same filtered view as leaving that selection empty. *)
Theorem all_sentinel_omits_constraint
    (data : DataFrame) (ss : list string) (ys qs : list Choice) (d : DayType) :
  (In "All" ss ->
     filtered_data data (mkSel ss ys qs d) = filtered_data data (mkSel [] ys qs d))
  /\ (In All ys ->
     filtered_data data (mkSel ss ys qs d) = filtered_data data (mkSel ss [] qs d))
  /\ (In All qs ->
     filtered_data data (mkSel ss ys qs d) = filtered_data data (mkSel ss ys [] d)).
Proof.
  unfold filtered_data; cbn [selected_states selected_years selected_quarters
                               weekend_options].
  repeat split; intro H.
  - apply has_All_str_In in H. unfold filter_states. now rewrite H.
  - apply has_All_In in H. unfold filter_years. now rewrite H.
  - apply has_All_In in H. unfold filter_quarters. now rewrite H.
Qed.

Lemma all_sentinel_omits_constraint_witness :
  In "All" ["Goa"; "All"] /\ In All [All] /\ In All [Val 2; All] /\
  filtered_data Examples.sample_data (mkSel ["Goa"; "All"] [All] [Val 2; All] WeekendOnly)
  = filtered_data Examples.sample_data (mkSel [] [All] [Val 2; All] WeekendOnly).
Proof.
  split; [simpl; tauto|]. split; [simpl; tauto|]. split; [simpl; tauto|].
  apply (all_sentinel_omits_constraint Examples.sample_data ["Goa"; "All"] [All]
           [Val 2; All] WeekendOnly).
  simpl; tauto.
Defined.

Section Partition.

Context {A : Type}.

Lemma filter_split_Permutation (f g : A -> bool) (l : list A) :
  (forall x, In x l -> g x = negb (f x)) ->
  Permutation (filter f l ++ filter g l) l.
Proof.
  induction l as [|a l IH]; intro H; simpl.
  - constructor.
  - rewrite (H a (or_introl eq_refl)).
    assert (IH' := IH (fun x Hx => H x (or_intror Hx))).
    destruct (f a); simpl.
    + now constructor.
    + symmetry. apply Permutation_cons_app. now symmetry.
Qed.

End Partition.

Lemma before_weekend_incl data ss ys qs :
  incl (rows (before_weekend data ss ys qs)) (rows data).
Proof.
  intros r Hr. unfold before_weekend, filter_quarters, filter_years in Hr.
  apply (In_filter_choice quarter) in Hr. destruct Hr as [Hr _].
  apply (In_filter_choice year) in Hr. destruct Hr as [Hr _].
  now apply In_filter_states in Hr.
Qed.

(** C7. When every weekend flag of the data set is 0 or 1, the weekday-only
    and weekend-only views (other selections equal) share no row, and
    together they hold exactly the rows of the view with day type All. *)
Theorem day_type_partition
    (data : DataFrame) (ss : list string) (ys qs : list Choice) :
  (forall r, In r (rows data) -> is_weekend r = 0 \/ is_weekend r = 1) ->
  let view d := rows (filtered_data data (mkSel ss ys qs d)) in
  (forall r, In r (view WeekdayOnly) -> ~ In r (view WeekendOnly))
  /\ (forall r, In r (view DayAll) <->
                In r (view WeekdayOnly) \/ In r (view WeekendOnly))
  /\ Permutation (view WeekdayOnly ++ view WeekendOnly) (view DayAll).
Proof.
  intros Hflag view.
  assert (Hview : forall d, view d =
            rows (filter_weekend d (before_weekend data ss ys qs)))
    by reflexivity.
  assert (Hsub := before_weekend_incl data ss ys qs).
  split; [|split].
  - intros r H0 H1. rewrite Hview in H0, H1.
    apply In_filter_weekend in H0, H1. lia.
  - intro r. rewrite !Hview, !In_filter_weekend.
    split.
    + intros [Hin _]. destruct (Hflag r (Hsub r Hin)); tauto.
    + tauto.
  - rewrite !Hview. simpl.
    apply filter_split_Permutation.
    intros r Hin. destruct (Hflag r (Hsub r Hin)) as [-> | ->]; reflexivity.
Qed.

Lemma day_type_partition_witness :
  let view d := rows (filtered_data Examples.sample_data (mkSel ["All"] [All] [All] d)) in
  (forall r, In r (view WeekdayOnly) -> ~ In r (view WeekendOnly))
  /\ (forall r, In r (view DayAll) <->
                In r (view WeekdayOnly) \/ In r (view WeekendOnly))
  /\ Permutation (view WeekdayOnly ++ view WeekendOnly) (view DayAll).
Proof.
  apply (day_type_partition Examples.sample_data ["All"] [All] [All]).
  intros r Hr. simpl in Hr.
  destruct Hr as [<- | [<- | [<- | []]]]; simpl; lia.
Defined.

(* ------------------------------------------------------------------ *)
(** ** Grouping *)

#[export] Instance KeyEq_Z : KeyEq Z := Z.eqb_eq.
#[export] Instance KeyEq_string : KeyEq string := String.eqb_eq.

#[export] Instance KeyEq_pair {A B} `{KeyEq A} `{KeyEq B} : KeyEq (A * B).
Proof.
  intros [a b] [c d]. unfold keqb; simpl. unfold pair_eqb; simpl.
  rewrite andb_true_iff, !keqb_eq. split.
  - intros [-> ->]. reflexivity.
  - intro E. injection E as -> ->. split; reflexivity.
Qed.

Section GroupFacts.
Context {K : Type} `{KeyEq K}.

Lemma keqb_refl (k : K) : keqb k k = true.
Proof. now apply keqb_eq. Qed.

Lemma keqb_neq (a b : K) : keqb a b = false <-> a <> b.
Proof.
  rewrite <- (keqb_eq a b). destruct (keqb a b); split; congruence.
Qed.

Lemma In_unique (l : list K) (x : K) : In x (unique l) <-> In x l.
Proof.
  induction l as [|a l IH]; simpl; [tauto|].
  rewrite filter_In, IH, negb_true_iff, keqb_neq.
  destruct (keqb x a) eqn:E.
  - apply keqb_eq in E. subst. tauto.
  - apply keqb_neq in E. split; [tauto|].
    intros [-> | Hin]; [tauto|]. right. split; assumption.
Qed.

Lemma NoDup_unique (l : list K) : NoDup (unique l).
Proof.
  induction l as [|a l IH]; simpl; constructor.
  - rewrite filter_In, negb_true_iff, keqb_neq. tauto.
  - now apply NoDup_filter.
Qed.

Lemma insert_Permutation (k : K) (l : list K) :
  Permutation (insert k l) (k :: l).
Proof.
  induction l as [|x t IH]; simpl.
  - reflexivity.
  - destruct (kleb k x); [reflexivity|].
    rewrite IH. apply perm_swap.
Qed.

Lemma sorted_Permutation (l : list K) : Permutation (sorted l) l.
Proof.
  induction l as [|x t IH]; simpl.
  - constructor.
  - rewrite insert_Permutation. now constructor.
Qed.

Lemma NoDup_group_keys (key : Row -> K) (rs : list Row) :
  NoDup (group_keys key rs).
Proof.
  unfold group_keys.
  eapply Permutation_NoDup;
    [symmetry; apply sorted_Permutation | apply NoDup_unique].
Qed.

Lemma In_group_keys (key : Row -> K) (rs : list Row) (k : K) :
  In k (group_keys key rs) <-> exists r, In r rs /\ key r = k.
Proof.
  unfold group_keys.
  rewrite (Permutation_in' (eq_refl k) (sorted_Permutation _)).
  rewrite In_unique, in_map_iff.
  split; intros [r [A B]]; exists r; tauto.
Qed.

Lemma group_cons (key : Row -> K) (r : Row) (rs : list Row) (k : K) :
  group key (r :: rs) k
  = if keqb (key r) k then r :: group key rs k else group key rs k.
Proof. reflexivity. Qed.

Lemma groupwise_key key v rs k ks :
  groupwise key v rs (k :: ks)
  = Series.sum (map v (group key rs k)) + groupwise key v rs ks.
Proof. reflexivity. Qed.

Lemma groupwise_cons_notin key v r rs ks :
  ~ In (key r) ks ->
  groupwise key v (r :: rs) ks = groupwise key v rs ks.
Proof.
  induction ks as [|k ks IH]; intro Hn; [reflexivity|].
  rewrite !groupwise_key, IH by (intro; apply Hn; now right).
  rewrite group_cons.
  assert (E : keqb (key r) k = false)
    by (apply keqb_neq; intro; apply Hn; now left).
  now rewrite E.
Qed.

Lemma groupwise_cons_in key v r rs ks :
  NoDup ks -> In (key r) ks ->
  groupwise key v (r :: rs) ks = v r + groupwise key v rs ks.
Proof.
  induction ks as [|k ks IH]; intros Hnd Hin; [destruct Hin|].
  inversion Hnd as [|? ? Hnotin Hnd']; subst.
  rewrite !groupwise_key, group_cons.
  destruct (keqb (key r) k) eqn:E.
  - apply keqb_eq in E. subst k.
    rewrite (groupwise_cons_notin key v r rs ks Hnotin).
    simpl. lia.
  - apply keqb_neq in E.
    destruct Hin as [Hin | Hin]; [congruence|].
    rewrite (IH Hnd' Hin). lia.
Qed.

(** Summing a measure group by group, over distinct keys that cover the
    rows, visits every row once. *)
Lemma sum_over_groups (key : Row -> K) (v : Row -> Z) (rs : list Row)
    (ks : list K) :
  NoDup ks ->
  (forall r, In r rs -> In (key r) ks) ->
  groupwise key v rs ks = Series.sum (map v rs).
Proof.
  intros Hnd. induction rs as [|r rs IH]; intro Hcov.
  - unfold groupwise. simpl. clear Hnd Hcov.
    induction ks as [|k ks IHk]; simpl; [reflexivity|]. now rewrite IHk.
  - rewrite groupwise_cons_in; [|assumption|apply Hcov; now left].
    rewrite IH by (intros; apply Hcov; now right). reflexivity.
Qed.

Lemma agg_enrollment_totals (key : Row -> K) (rs : list Row) :
  map Total_Enrollment (agg_enrollment key rs)
  = map (fun k => Series.sum (map total_enrollment (group key rs k)))
        (group_keys key rs).
Proof.
  unfold agg_enrollment, groupby, enrollments.
  rewrite !map_map. reflexivity.
Qed.

Lemma agg_enrollment_sum (key : Row -> K) (rs : list Row) :
  Series.sum (map Total_Enrollment (agg_enrollment key rs))
  = Series.sum (enrollments rs).
Proof.
  rewrite agg_enrollment_totals.
  apply (sum_over_groups key total_enrollment).
  - apply NoDup_group_keys.
  - intros r Hr. apply In_group_keys. now exists r.
Qed.

End GroupFacts.

Section RankingFacts.
Context {K : Type}.

Lemma insert_desc_Permutation (a : Agg K) (l : list (Agg K)) :
  Permutation (insert_desc a l) (a :: l).
Proof.
  induction l as [|x t IH]; simpl.
  - reflexivity.
  - destruct (Total_Enrollment x <=? Total_Enrollment a); [reflexivity|].
    rewrite IH. apply perm_swap.
Qed.

Lemma sort_values_desc_Permutation (l : list (Agg K)) :
  Permutation (sort_values_desc l) l.
Proof.
  induction l as [|x t IH]; simpl.
  - constructor.
  - rewrite insert_desc_Permutation. now constructor.
Qed.

End RankingFacts.

Lemma sum_Permutation (l l' : list Z) :
  Permutation l l' -> Series.sum l = Series.sum l'.
Proof.
  induction 1; simpl; lia.
Qed.

Lemma sum_app (l l' : list Z) :
  Series.sum (l ++ l') = Series.sum l + Series.sum l'.
Proof.
  induction l as [|x l IH]; simpl; lia.
Qed.

Lemma sum_ones {A} (l : list A) :
  Series.sum (map (fun _ => 1) l) = Z.of_nat (List.length l).
Proof.
  induction l as [|a l IH]; [reflexivity|].
  cbn [map Series.sum fold_right List.length]. fold (Series.sum (map (fun _ : A => 1) l)).
  rewrite IH. lia.
Qed.

Lemma total_records_sum {K} (t : list (Agg K)) :
  Z.of_nat (total_records t)
  = Series.sum (map (fun a => Z.of_nat (Records a)) t).
Proof.
  unfold total_records.
  induction t as [|a t IH]; [reflexivity|].
  cbn [map fold_right Series.sum]. rewrite Nat2Z.inj_add, IH. reflexivity.
Qed.

(** No row is lost and none is counted twice: the group sizes add up to the
    number of rows. *)
Lemma agg_enrollment_records {K} `{KeyEq K} (key : Row -> K) (rs : list Row) :
  total_records (agg_enrollment key rs) = List.length rs.
Proof.
  apply Nat2Z.inj. rewrite total_records_sum.
  unfold agg_enrollment, groupby, enrollments. rewrite !map_map. simpl.
  rewrite <- (sum_ones rs).
  rewrite <- (sum_over_groups key (fun _ => 1) rs (group_keys key rs)).
  - unfold groupwise. f_equal. apply map_ext. intro k.
    now rewrite sum_ones, length_map.
  - apply NoDup_group_keys.
  - intros r Hr. apply In_group_keys. now exists r.
Qed.

(** C6. For each grouping used by the blocks (month, quarter, day of week,
    weekend flag, state, state and district, year, and district within one
    chosen state)
    the per-group totals add up to the total enrollment of the rows that
    were grouped, and the group sizes add up to the number of rows. *)
Theorem group_totals_preserve_sum (fd : DataFrame) :
  let total := Series.sum (enrollments (rows fd)) in
  (grand_total (monthly_data fd) = total
   /\ grand_total (quarterly_data fd) = total
   /\ grand_total (dow_data fd) = total
   /\ grand_total (weekend_comparison fd) = total
   /\ grand_total (state_map_data fd) = total
   /\ grand_total (state_data fd) = total
   /\ grand_total (district_data fd) = total
   /\ grand_total (yearly_data fd) = total)
  /\ (forall s, grand_total (district_summary fd s)
                = Series.sum (enrollments
                    (filter (fun r => String.eqb (state r) s) (rows fd))))
  /\ (total_records (monthly_data fd) = len fd
      /\ total_records (state_map_data fd) = len fd
      /\ total_records (district_data fd) = len fd).
Proof.
  unfold grand_total, monthly_data, quarterly_data, dow_data,
    weekend_comparison, state_map_data, state_data, district_data,
    yearly_data, len.
  cbv zeta.
  rewrite !agg_enrollment_sum, !agg_enrollment_records.
  repeat split.
  intro s. unfold district_summary.
  rewrite (sum_Permutation _ _
             (Permutation_map Total_Enrollment
                (sort_values_desc_Permutation _))).
  now rewrite agg_enrollment_sum.
Qed.

(* ------------------------------------------------------------------ *)
(** ** Year-over-year growth *)

Section SortedKeys.

Lemma insert_Sorted (k : Z) (l : list Z) :
  Sorted Z.le l -> Sorted Z.le (insert k l).
Proof.
  induction l as [|x t IH]; intro Hs; simpl.
  - repeat constructor.
  - destruct (Z.leb_spec k x) as [Hle | Hlt].
    + constructor; [assumption | now constructor].
    + inversion Hs as [|? ? Hs' Hhd]; subst.
      constructor; [now apply IH|].
      destruct t as [|y t']; simpl.
      * constructor. lia.
      * destruct (Z.leb_spec k y); constructor; [lia|].
        now inversion Hhd.
Qed.

Lemma sorted_Sorted (l : list Z) : Sorted Z.le (sorted l).
Proof.
  induction l as [|x t IH]; simpl; [constructor | now apply insert_Sorted].
Qed.

Lemma StronglySorted_strict (l : list Z) :
  StronglySorted Z.le l -> NoDup l -> StronglySorted Z.lt l.
Proof.
  induction 1 as [|a l Hs IH Hall]; intro Hnd; constructor;
    inversion Hnd as [|? ? Hnotin Hnd']; subst.
  - now apply IH.
  - rewrite Forall_forall in *. intros x Hx.
    assert (a <= x) by now apply Hall.
    assert (a <> x) by (intro; subst; contradiction).
    lia.
Qed.

(** Group keys of an integer column come in strictly increasing order. *)
Lemma group_keys_increasing (key : Row -> Z) (rs : list Row) :
  StronglySorted Z.lt (group_keys key rs).
Proof.
  apply StronglySorted_strict.
  - apply Sorted_StronglySorted; [exact Z.le_trans | apply sorted_Sorted].
  - apply NoDup_group_keys.
Qed.

End SortedKeys.

Lemma agg_enrollment_keys {K} `{Key K} (key : Row -> K) (rs : list Row) :
  map agg_key (agg_enrollment key rs) = group_keys key rs.
Proof.
  unfold agg_enrollment, groupby. rewrite !map_map. simpl. apply map_id.
Qed.

Lemma agg_enrollment_In {K} `{Key K} (key : Row -> K) (rs : list Row) a :
  In a (agg_enrollment key rs) ->
  Total_Enrollment a = Series.sum (enrollments (group key rs (agg_key a)))
  /\ Avg_Enrollment a = Series.mean (enrollments (group key rs (agg_key a)))
  /\ Records a = List.length (group key rs (agg_key a)).
Proof.
  unfold agg_enrollment, groupby. rewrite map_map, in_map_iff.
  intros [k [<- _]]. simpl. unfold enrollments.
  now rewrite length_map.
Qed.

Section PctChange.

Lemma combine_shift (x : Z) (t : list Z) :
  combine t (map of_int (removelast (x :: t))) = with_previous x t.
Proof.
  revert x. induction t as [|c t IH]; intro x; [reflexivity|].
  change (removelast (x :: c :: t)) with (x :: removelast (c :: t)).
  cbn [map combine with_previous]. now rewrite IH.
Qed.

Lemma pct_change_cons (x : Z) (t : list Z) :
  Series.pct_change (x :: t)
  = NaN :: map (fun p => fsub (fdiv (of_int (fst p)) (snd p)) (Fin 1))
               (with_previous x t).
Proof.
  unfold Series.pct_change, Series.shift.
  cbn [combine map fst snd]. now rewrite combine_shift.
Qed.

Lemma Growth_pct_length (l : list Z) :
  List.length (Growth_pct l) = List.length l.
Proof.
  unfold Growth_pct, Series.pct_change, Series.shift.
  rewrite !length_map, length_combine.
  destruct l as [|x t]; [reflexivity|].
  cbn [List.length]. rewrite length_map, removelast_firstn_len.
  rewrite length_firstn. cbn [List.length]. lia.
Qed.

Lemma Growth_pct_first (x : Z) (t : list Z) :
  nth_error (Growth_pct (x :: t)) 0 = Some NaN.
Proof.
  unfold Growth_pct. now rewrite pct_change_cons.
Qed.

Lemma inject_Z_nonzero (z : Z) : z <> 0 -> ~ Qeq (inject_Z z) 0.
Proof.
  intros Hz Hq. apply Hz. unfold Qeq, inject_Z in Hq. simpl in Hq. lia.
Qed.

(** The library's [x / previous - 1], times 100, is the specification's
    [(x - previous) / previous * 100], division by zero included. *)
Lemma growth_formula (prev cur : Z) :
  feq (fmul (fsub (fdiv (of_int cur) (of_int prev)) (Fin 1)) (Fin 100))
      (GrowthSpec.growth prev cur).
Proof.
  unfold GrowthSpec.growth, of_int.
  destruct (Z.eq_dec prev 0) as [-> | Hnz].
  - destruct cur; simpl; exact I.
  - assert (Hq := inject_Z_nonzero prev Hnz).
    assert (Hb : Qeq_bool (inject_Z prev) 0 = false).
    { destruct (Qeq_bool (inject_Z prev) 0) eqn:E; [|reflexivity].
      apply Qeq_bool_iff in E. contradiction. }
    unfold fdiv, fsub, fneg, fadd. rewrite Hb.
    unfold fmul, feq. field. exact Hq.
Qed.

Lemma with_previous_nth (l : list Z) :
  forall x i prev cur,
    nth_error (x :: l) i = Some prev ->
    nth_error (x :: l) (S i) = Some cur ->
    nth_error (with_previous x l) i = Some (cur, of_int prev).
Proof.
  induction l as [|c t IH]; intros x i prev cur Hp Hc.
  - destruct i; discriminate.
  - destruct i as [|i].
    + simpl in *. congruence.
    + simpl. apply IH; assumption.
Qed.

Lemma Growth_pct_next (l : list Z) (i : nat) (prev cur : Z) :
  nth_error l i = Some prev ->
  nth_error l (S i) = Some cur ->
  exists g, nth_error (Growth_pct l) (S i) = Some g
            /\ feq g (GrowthSpec.growth prev cur).
Proof.
  intros Hp Hc. destruct l as [|x t]; [destruct i; discriminate|].
  unfold Growth_pct. rewrite pct_change_cons. cbn [map nth_error].
  rewrite map_map.
  rewrite (map_nth_error _ _ _ (with_previous_nth t x i prev cur Hp Hc)).
  eexists. split; [reflexivity|]. apply growth_formula.
Qed.

End PctChange.

Lemma combine_fst_snd {A B} (l : list A) (l' : list B) :
  List.length l = List.length l' ->
  map fst (combine l l') = l /\ map snd (combine l l') = l'.
Proof.
  revert l'. induction l as [|a l IH]; intros [|b l'] Hlen;
    try discriminate; simpl; [tauto|].
  injection Hlen as Hlen. destruct (IH l' Hlen) as [-> ->]. tauto.
Qed.

Lemma StronglySorted_nth_lt (l : list Z) :
  StronglySorted Z.lt l ->
  forall i j a b,
    (i < j)%nat -> nth_error l i = Some a -> nth_error l j = Some b -> a < b.
Proof.
  induction 1 as [|x l Hs IH Hall]; intros i j a b Hij Ha Hb.
  - destruct i; discriminate.
  - destruct j as [|j]; [lia|]. cbn [nth_error] in Hb.
    destruct i as [|i].
    + injection Ha as <-. rewrite Forall_forall in Hall.
      apply Hall. now apply nth_error_In in Hb.
    + cbn [nth_error] in Ha. apply (IH i j); [lia | assumption..].
Qed.

Lemma nth_error_map_agg_key {K} (t : list (Agg K)) (i : nat) (a : Agg K) :
  nth_error t i = Some a -> nth_error (map agg_key t) i = Some (agg_key a).
Proof. intro H. now apply map_nth_error. Qed.

(** C5. The yearly table has one row for each year that occurs in the
    view and for no other year, in increasing order of the year, each with
    the total enrollment of that year's records; so the row before a year's
    row is that of the previous year of the view.  No growth is computed
    exactly when all records of the view are of one year (or the view is
    empty); the tab then shows the hint of line 756.  Otherwise the growth
    column is undefined (nan) for the first year and, for every later year,
    equal to (this year total - previous year total) / previous year total
    x 100, and the tab shows the table with that column. *)
Theorem year_over_year_growth (fd : DataFrame) :
  let yearly := yearly_data fd in
  let totals := map Total_Enrollment yearly in
  StronglySorted Z.lt (map agg_key yearly)
  /\ (forall y, In y (map agg_key yearly) <->
                exists r, In r (rows fd) /\ year r = y)
  /\ (forall a, In a yearly ->
        Total_Enrollment a
        = Series.sum
            (map total_enrollment
               (filter (fun r => Z.eqb (year r) (agg_key a)) (rows fd))))
  /\ (forall i a b,
        nth_error yearly i = Some a ->
        nth_error yearly (S i) = Some b ->
        agg_key a < agg_key b
        /\ forall r, In r (rows fd) -> ~ (agg_key a < year r < agg_key b))
  /\ (yoy_table fd = None <->
      forall r r', In r (rows fd) -> In r' (rows fd) -> year r = year r')
  /\ match yoy_table fd with
     | Some t =>
         map fst t = yearly
         /\ nth_error (map snd t) 0 = Some NaN
         /\ (forall i previous this,
               nth_error totals i = Some previous ->
               nth_error totals (S i) = Some this ->
               exists g, nth_error (map snd t) (S i) = Some g
                         /\ feq g (GrowthSpec.growth previous this))
     | None => (List.length yearly <= 1)%nat
     end
  /\ year_over_year fd
     = match yoy_table fd with
       | Some t =>
           let body :=
             map (fun p => agg_row2 (fst p) ++ [VFloat (snd p)]) t in
           let cols :=
             ["Year"; "Total_Enrollment"; "Avg_Enrollment"; "Growth_%"] in
           ([Plot "Total Enrollment by Year" cols body;
             Plot "Year-over-Year Growth Rate (%)" cols body;
             Table cols body], inr tt)
       | None =>
           ([Note Info "Multiple years needed for year-over-year comparison"
               []], inr tt)
       end.
Proof.
  intros yearly totals.
  assert (Hkeys : map agg_key yearly = group_keys year (rows fd))
    by (unfold yearly, yearly_data; apply agg_enrollment_keys).
  assert (Hsorted : StronglySorted Z.lt (map agg_key yearly))
    by (rewrite Hkeys; apply group_keys_increasing).
  assert (Hcover : forall y, In y (map agg_key yearly) <->
                     exists r, In r (rows fd) /\ year r = y)
    by (intro y; rewrite Hkeys; apply In_group_keys).
  split; [exact Hsorted|]. split; [exact Hcover|].
  split; [|split; [|split; [|split]]].
  - intros a Ha. now apply agg_enrollment_In in Ha.
  - intros i a b Ha Hb.
    apply nth_error_map_agg_key in Ha, Hb.
    split.
    + apply (StronglySorted_nth_lt _ Hsorted i (S i)); [lia | assumption..].
    + intros r Hr [Hlo Hhi].
      assert (Hy : In (year r) (map agg_key yearly))
        by (apply Hcover; now exists r).
      apply In_nth_error in Hy. destruct Hy as [j Hj].
      destruct (Nat.lt_trichotomy j i) as [Hlt | [-> | Hgt]].
      * assert (year r < agg_key a)
          by (apply (StronglySorted_nth_lt _ Hsorted j i); assumption).
        lia.
      * rewrite Ha in Hj. injection Hj as Hj. lia.
      * destruct (Nat.eq_dec j (S i)) as [-> | Hne].
        -- rewrite Hb in Hj. injection Hj as Hj. lia.
        -- assert (agg_key b < year r)
             by (apply (StronglySorted_nth_lt _ Hsorted (S i) j);
                 [lia | assumption..]).
           lia.
  - unfold yoy_table. fold yearly.
    destruct (Nat.ltb_spec 1 (List.length yearly)) as [Hlt | Hle]; split.
    + discriminate.
    + intro Hone. exfalso.
      rewrite <- (length_map agg_key) in Hlt.
      assert (Hnd : NoDup (map agg_key yearly))
        by (rewrite Hkeys; apply NoDup_group_keys).
      destruct (map agg_key yearly) as [|k1 [|k2 ks]] eqn:E;
        try (simpl in Hlt; lia).
      assert (H1 : exists r, In r (rows fd) /\ year r = k1)
        by (apply Hcover; now left).
      assert (H2 : exists r, In r (rows fd) /\ year r = k2)
        by (apply Hcover; right; now left).
      destruct H1 as [r1 [Hr1 <-]]. destruct H2 as [r2 [Hr2 <-]].
      inversion Hnd as [|? ? Hnotin _]; subst.
      apply Hnotin. left. symmetry. now apply Hone.
    + intros _ r r' Hr Hr'.
      assert (H1 : In (year r) (map agg_key yearly))
        by (apply Hcover; now exists r).
      assert (H2 : In (year r') (map agg_key yearly))
        by (apply Hcover; now exists r').
      rewrite <- (length_map agg_key) in Hle.
      destruct (map agg_key yearly) as [|k1 [|k2 ks]];
        [destruct H1 | | simpl in Hle; lia].
      destruct H1 as [<- | []]. destruct H2 as [<- | []]. reflexivity.
    + reflexivity.
  - unfold yoy_table. fold yearly. fold totals.
    destruct (Nat.ltb_spec 1 (List.length yearly)) as [Hlt | Hle];
      [|exact Hle].
    assert (Hlen : List.length yearly = List.length (Growth_pct totals))
      by (unfold totals; now rewrite Growth_pct_length, length_map).
    destruct (combine_fst_snd _ _ Hlen) as [Hf Hs].
    rewrite Hf, Hs. split; [reflexivity|]. split.
    + destruct totals as [|x t] eqn:E.
      * unfold totals in E. apply (f_equal (@List.length Z)) in E.
        rewrite length_map in E. simpl in E. lia.
      * apply Growth_pct_first.
    + intros i previous this. apply Growth_pct_next.
  - unfold year_over_year. now destruct (yoy_table fd).
Qed.

(* ------------------------------------------------------------------ *)
(** ** Runs *)

Section RunFacts.
Context {A B : Type}.

Lemma bind_ret (a : A) (k : A -> Run B) : bind (ret a) k = k a.
Proof. unfold bind, ret. now destruct (k a). Qed.

Lemma bind_raise (e : Exc) (k : A -> Run B) : bind (raise e) k = raise e.
Proof. reflexivity. Qed.

Lemma rendered_bind (m : Run A) (k : A -> Run B) :
  rendered (bind m k)
  = match outcome m with
    | inl _ => rendered m
    | inr a => rendered m ++ rendered (k a)
    end.
Proof.
  destruct m as [out [e | a]]; simpl; [reflexivity|].
  now destruct (k a).
Qed.

Lemma outcome_bind (m : Run A) (k : A -> Run B) :
  outcome (bind m k)
  = match outcome m with
    | inl e => inl e
    | inr a => outcome (k a)
    end.
Proof.
  destruct m as [out [e | a]]; simpl; [reflexivity|].
  now destruct (k a).
Qed.

(** Once a block has raised, nothing after it is rendered. *)
Lemma raised_ends_run (m : Run A) (k : A -> Run B) (e : Exc) :
  outcome m = inl e -> bind m k = (rendered m, inl e).
Proof.
  destruct m as [out [e' | a]]; simpl; intro E; congruence.
Qed.

End RunFacts.

Lemma bind_emit {B} (e : Elem) (k : unit -> Run B) :
  bind (emit e) k = (e :: rendered (k tt), outcome (k tt)).
Proof. unfold bind, emit. now destruct (k tt). Qed.

(* ------------------------------------------------------------------ *)
(** ** Empty views *)

(** The first tab of the geographic block raises on an empty view, after
    drawing the empty map. *)
Lemma geographic_map_empty (cols : list string) (w : Widgets) :
  geographic_map (mkDF cols []) w
  = ([Plot "Total Enrollment by State - Interactive Map"
        ["state"; "Total_Enrollment"; "Avg_Enrollment"; "Records"] []],
     inl IndexError).
Proof. reflexivity. Qed.

(** So do the other two tabs, at lines 544 and 582. *)
Lemma geographic_states_empty (cols : list string) :
  outcome (geographic_states (mkDF cols [])) = inl IndexError.
Proof. reflexivity. Qed.

Lemma geographic_districts_empty (cols : list string) :
  outcome (geographic_districts (mkDF cols [])) = inl IndexError.
Proof. reflexivity. Qed.

(** The blocks before the geographic one are well defined on an empty view:
    zero sum, nan mean, zero distinct counts, empty tables, N/A averages. *)
Lemma kpis_empty (cols : list string) :
  kpis (mkDF cols [])
  = ([Metric "Total Enrollments" (VInt 0) None;
      Metric "Average Enrollment" (VFloat NaN) None;
      Metric "Total States" (VInt 0) None;
      Metric "Total Districts" (VInt 0) None;
      Metric "Total Records" (VInt 0) None], inr tt).
Proof. reflexivity. Qed.

Lemma temporal_empty (cols : list string) :
  temporal (mkDF cols [])
  = ([Plot "Monthly Enrollment Analysis"
        ["Month"; "Total_Enrollment"; "Avg_Enrollment"] [];
      Table ["Month"; "Total_Enrollment"; "Avg_Enrollment"; "Records"] [];
      Plot "Total Enrollment by Quarter"
        ["Quarter"; "Total_Enrollment"; "Avg_Enrollment"] [];
      Plot "Enrollment Distribution by Quarter"
        ["Quarter"; "Total_Enrollment"; "Avg_Enrollment"] [];
      Plot "Average Enrollment by Day of Week"
        ["Day_of_Week"; "Total_Enrollment"; "Avg_Enrollment"; "Day_Name"] [];
      Metric "Weekday Avg Enrollment" (VStr "N/A") None;
      Metric "Weekend Avg Enrollment" (VStr "N/A") None], inr tt).
Proof. reflexivity. Qed.

(** Every run over an empty view ends with [IndexError] in the geographic
    block; the demographic, comparative, explorer and statistical blocks
    are never reached. *)
Lemma empty_view_ends_run (data : DataFrame) (sel : Selection) (w : Widgets) :
  rows (filtered_data data sel) = [] ->
  outcome (app data sel w) = inl IndexError.
Proof.
  unfold app. destruct (filtered_data data sel) as [cols rs]. simpl.
  intros ->. unfold dashboard.
  rewrite !outcome_bind.
  assert (Hs : outcome (filter_status data (mkDF cols [])) = inr tt)
    by (unfold filter_status; now destruct (_ <? _)%nat).
  rewrite Hs, kpis_empty, temporal_empty. simpl outcome at 1 2.
  unfold geographic. rewrite outcome_bind, geographic_map_empty.
  reflexivity.
Qed.

(** C2. A single weekday record seen through the weekend-only filter gives
    an empty view.  The indicators are then 0, nan, 0, 0, 0 and the temporal
    tables are empty, but the run ends with an [IndexError] at the highest
    enrollment state (line 389): the remaining blocks are not rendered. *)
Theorem empty_view_IndexError :
  rows (filtered_data Examples.weekday_data Examples.weekend_only) = []
  /\ app Examples.weekday_data Examples.weekend_only Examples.untouched
     = ([Note Info "Showing records out of total records (filtered)"
           [VInt 0; VInt 1];
         Metric "Total Enrollments" (VInt 0) None;
         Metric "Average Enrollment" (VFloat NaN) None;
         Metric "Total States" (VInt 0) None;
         Metric "Total Districts" (VInt 0) None;
         Metric "Total Records" (VInt 0) None;
         Plot "Monthly Enrollment Analysis"
           ["Month"; "Total_Enrollment"; "Avg_Enrollment"] [];
         Table ["Month"; "Total_Enrollment"; "Avg_Enrollment"; "Records"] [];
         Plot "Total Enrollment by Quarter"
           ["Quarter"; "Total_Enrollment"; "Avg_Enrollment"] [];
         Plot "Enrollment Distribution by Quarter"
           ["Quarter"; "Total_Enrollment"; "Avg_Enrollment"] [];
         Plot "Average Enrollment by Day of Week"
           ["Day_of_Week"; "Total_Enrollment"; "Avg_Enrollment"; "Day_Name"] [];
         Metric "Weekday Avg Enrollment" (VStr "N/A") None;
         Metric "Weekend Avg Enrollment" (VStr "N/A") None;
         Plot "Total Enrollment by State - Interactive Map"
           ["state"; "Total_Enrollment"; "Avg_Enrollment"; "Records"] []],
        inl IndexError).
Proof. split; reflexivity. Qed.

(* ------------------------------------------------------------------ *)
(** ** Optional columns *)

Section Columns.

Lemma index_of_None (c : string) (l : list string) :
  index_of c l = None <-> existsb (String.eqb c) l = false.
Proof.
  induction l as [|x t IH]; simpl; [tauto|].
  destruct (String.eqb c x); simpl; [split; discriminate|].
  rewrite <- IH. destruct (index_of c t); simpl; split; congruence.
Qed.

(** A name outside the eight required ones is a column exactly when the
    file carries it as an optional column. *)
Lemma has_column_optional (df : DataFrame) (c : string) :
  existsb (String.eqb c) required_columns = false ->
  has_column df c = existsb (String.eqb c) (extra_columns df).
Proof.
  intro Hreq. unfold has_column, columns.
  now rewrite existsb_app, Hreq.
Qed.

Lemma int_reader_optional (df : DataFrame) (c : string) :
  existsb (String.eqb c) required_columns = false ->
  int_reader df c
  = option_map (fun i r => nth i (extras r) 0)
               (index_of c (extra_columns df)).
Proof.
  intro Hreq. simpl in Hreq.
  repeat (apply orb_false_elim in Hreq; destruct Hreq as [? Hreq]).
  unfold int_reader.
  repeat match goal with
         | E : String.eqb c _ = false |- _ => rewrite E; clear E
         end.
  reflexivity.
Qed.

(** Reading an optional column that the file lacks is a [KeyError]. *)
Lemma getitem_missing (df : DataFrame) (c : string) :
  existsb (String.eqb c) required_columns = false ->
  has_column df c = false ->
  getitem df c = raise (KeyError c).
Proof.
  intros Hreq Hno. rewrite (has_column_optional df c Hreq) in Hno.
  apply index_of_None in Hno.
  unfold getitem. rewrite (int_reader_optional df c Hreq), Hno.
  reflexivity.
Qed.

(** Reading one the file has gives its values. *)
Lemma getitem_present (df : DataFrame) (c : string) :
  existsb (String.eqb c) required_columns = false ->
  has_column df c = true ->
  exists v, getitem df c = ret v.
Proof.
  intros Hreq Hyes. rewrite (has_column_optional df c Hreq) in Hyes.
  unfold getitem. rewrite (int_reader_optional df c Hreq).
  destruct (index_of c (extra_columns df)) as [i|] eqn:E.
  - simpl. eexists. reflexivity.
  - apply index_of_None in E. congruence.
Qed.

End Columns.

(** Without [age_0_5] the block shows the warning and nothing else. *)
Lemma demographic_warning (fd : DataFrame) :
  has_column fd "age_0_5" = false ->
  demographic fd
  = ([Note Warning "Age group data not available in filtered dataset" []],
     inr tt).
Proof.
  intro H. unfold demographic. now rewrite H.
Qed.

(** With [age_0_5] but without one of the other two brackets the block
    raises before it renders anything. *)
Lemma demographic_KeyError (fd : DataFrame) :
  has_column fd "age_0_5" = true ->
  (has_column fd "age_5_17" = false ->
     demographic fd = ([], inl (KeyError "age_5_17")))
  /\ (has_column fd "age_5_17" = true ->
      has_column fd "age_18_greater" = false ->
     demographic fd = ([], inl (KeyError "age_18_greater"))).
Proof.
  intro H0. unfold demographic. rewrite H0.
  destruct (getitem_present fd "age_0_5" eq_refl H0) as [v0 E0].
  rewrite E0, bind_ret. split.
  - intro H1. now rewrite (getitem_missing fd "age_5_17" eq_refl H1).
  - intros H1 H2.
    destruct (getitem_present fd "age_5_17" eq_refl H1) as [v1 E1].
    rewrite E1, bind_ret.
    now rewrite (getitem_missing fd "age_18_greater" eq_refl H2).
Qed.

(** C9. A file that has [age_0_5] but not [age_5_17]: the guard of line
    600 passes, line 602 raises [KeyError], the block shows neither figures
    nor warning, and the run ends there, so that the comparative, explorer
    and statistical blocks are lost as well. *)
Theorem partial_age_columns_KeyError :
  has_column Examples.one_bracket_data "age_0_5" = true
  /\ has_column Examples.one_bracket_data "age_5_17" = false
  /\ demographic Examples.one_bracket_data = ([], inl (KeyError "age_5_17"))
  /\ outcome (app Examples.one_bracket_data Examples.everything
                Examples.untouched)
     = inl (KeyError "age_5_17").
Proof. repeat split; reflexivity. Qed.

(* ------------------------------------------------------------------ *)
(** ** The minor-versus-adult split *)

(** A reader of an optional column means the frame has the column, and
    [df[c]] gives its values. *)
Lemma int_reader_getitem (fd : DataFrame) (c : string) (f : Row -> Z) :
  existsb (String.eqb c) required_columns = false ->
  int_reader fd c = Some f ->
  has_column fd c = true /\ getitem fd c = ret (map f (rows fd)).
Proof.
  intros Hreq E. split.
  - rewrite (has_column_optional fd c Hreq).
    rewrite (int_reader_optional fd c Hreq) in E.
    destruct (existsb (String.eqb c) (extra_columns fd)) eqn:Hx;
      [reflexivity|].
    apply index_of_None in Hx. rewrite Hx in E. discriminate.
  - unfold getitem. now rewrite E.
Qed.

Lemma has_column_int_reader (fd : DataFrame) (c : string) :
  existsb (String.eqb c) required_columns = false ->
  has_column fd c = true ->
  exists f, int_reader fd c = Some f.
Proof.
  intros Hreq Hyes. rewrite (has_column_optional fd c Hreq) in Hyes.
  rewrite (int_reader_optional fd c Hreq).
  destruct (index_of c (extra_columns fd)) as [i|] eqn:E.
  - simpl. eexists. reflexivity.
  - apply index_of_None in E. congruence.
Qed.

(** Without a column named [minor_dount] the split is skipped: nothing is
    computed and nothing is rendered, whether [minor_count] is there or
    not. *)
Lemma minor_adult_skipped (fd : DataFrame) (adults : Z) :
  has_column fd "minor_dount" = false -> minor_adult fd adults = ret tt.
Proof.
  intro H. unfold minor_adult. now rewrite H.
Qed.

(** With [minor_dount] but without [minor_count] the rule and the
    sub-header are rendered and the read of line 654 raises. *)
Lemma minor_adult_KeyError (fd : DataFrame) (adults : Z) :
  has_column fd "minor_dount" = true ->
  has_column fd "minor_count" = false ->
  minor_adult fd adults
  = ([Text "---" []; Subheader "Minor vs Adult Enrollment"],
     inl (KeyError "minor_count")).
Proof.
  intros Hd Hc. unfold minor_adult. rewrite Hd.
  rewrite (getitem_missing fd "minor_count" eq_refl Hc).
  reflexivity.
Qed.


(** With the three age brackets among the columns the block renders the
    age groups and goes on to the split. *)
Lemma demographic_age_groups (fd : DataFrame) (f0 f5 f18 : Row -> Z) :
  int_reader fd "age_0_5" = Some f0 ->
  int_reader fd "age_5_17" = Some f5 ->
  int_reader fd "age_18_greater" = Some f18 ->
  let adults := Series.sum (map f18 (rows fd)) in
  demographic fd
  = (age_groups (Series.sum (map f0 (rows fd)))
       (Series.sum (map f5 (rows fd))) adults
     ++ rendered (minor_adult fd adults),
     outcome (minor_adult fd adults)).
Proof.
  intros E0 E5 E18 adults.
  destruct (int_reader_getitem fd "age_0_5" f0 eq_refl E0) as [H0 G0].
  destruct (int_reader_getitem fd "age_5_17" f5 eq_refl E5) as [_ G5].
  destruct (int_reader_getitem fd "age_18_greater" f18 eq_refl E18)
    as [_ G18].
  unfold demographic. rewrite H0, G0, bind_ret, G5, bind_ret, G18, bind_ret.
  rewrite !bind_emit. reflexivity.
Qed.

(** C10. The guard of line 650 tests a column named [minor_dount], and
    line 654 then reads [minor_count].  For every file with the three age
    brackets and [minor_dount] but without [minor_count], the block renders
    the age groups, the rule and the sub-header of the split and ends with
    [KeyError]: the split is not rendered although [age_0_5] and
    [minor_dount] are both there.  Without a column named [minor_dount] the
    split is skipped altogether, [minor_count] or not.  The file of the
    example has the columns age_0_5, age_5_17, age_18_greater and
    minor_dount; its run ends at line 654, so the blocks after the
    demographic one are lost too. *)
Theorem misspelt_guard_KeyError :
  (forall fd,
      has_column fd "age_0_5" = true ->
      has_column fd "age_5_17" = true ->
      has_column fd "age_18_greater" = true ->
      has_column fd "minor_dount" = true ->
      has_column fd "minor_count" = false ->
      exists a0 a5 a18,
        demographic fd
        = (age_groups a0 a5 a18
           ++ [Text "---" []; Subheader "Minor vs Adult Enrollment"],
           inl (KeyError "minor_count")))
  /\ (forall fd adults,
        has_column fd "minor_dount" = false ->
        minor_adult fd adults = ret tt)
  /\ has_column Examples.misspelt_only_data "age_0_5" = true
  /\ has_column Examples.misspelt_only_data "minor_dount" = true
  /\ has_column Examples.misspelt_only_data "minor_count" = false
  /\ demographic Examples.misspelt_only_data
     = ([Plot "Age Group Distribution" ["Age_Group"; "Count"]
           [[VStr "0-5 years"; VInt 40]; [VStr "5-17 years"; VInt 30];
            [VStr "18+ years"; VInt 30]];
         Plot "Enrollment Count by Age Group" ["Age_Group"; "Count"]
           [[VStr "0-5 years"; VInt 40]; [VStr "5-17 years"; VInt 30];
            [VStr "18+ years"; VInt 30]];
         Metric "Age 0-5" (VInt 40) None;
         Metric "Age 5-17" (VInt 30) None;
         Metric "Age 18+" (VInt 30) None;
         Text "---" [];
         Subheader "Minor vs Adult Enrollment"],
        inl (KeyError "minor_count"))
  /\ outcome (app Examples.misspelt_only_data Examples.everything
                Examples.untouched)
     = inl (KeyError "minor_count").
Proof.
  split; [|split; [exact minor_adult_skipped|repeat split; reflexivity]].
  intros fd H0 H5 H18 Hd Hc.
  destruct (has_column_int_reader fd "age_0_5" eq_refl H0) as [f0 E0].
  destruct (has_column_int_reader fd "age_5_17" eq_refl H5) as [f5 E5].
  destruct (has_column_int_reader fd "age_18_greater" eq_refl H18)
    as [f18 E18].
  rewrite (demographic_age_groups fd f0 f5 f18 E0 E5 E18). cbv zeta.
  rewrite (minor_adult_KeyError fd _ Hd Hc).
  eexists _, _, _. reflexivity.
Qed.

(* ------------------------------------------------------------------ *)
(** ** Minor percentage *)







(* ------------------------------------------------------------------ *)
(** ** The CSV export *)

Module CsvFacts.
Import Csv.

Lemma append_assoc (a b c : string) : ((a ++ b) ++ c = a ++ (b ++ c))%string.
Proof.
  induction a as [|x a IH]; simpl; [reflexivity | now rewrite IH].
Qed.

Lemma sep_test (c : ascii) :
  is_sep c -> Ascii.eqb c comma || is_eol c = true.
Proof. intros [-> | ->]; reflexivity. Qed.

Lemma sep_not_dquote (c : ascii) : is_sep c -> Ascii.eqb c dquote = false.
Proof. intros [-> | ->]; reflexivity. Qed.

(** A character that needs no quotes and is no carriage return is read as
    part of the field it stands in. *)
Lemma plain_char (c : ascii) :
  special c = false -> Ascii.eqb c CR = false ->
  Ascii.eqb c comma = false /\ Ascii.eqb c dquote = false
  /\ is_eol c = false.
Proof.
  unfold special, is_eol. intros H Hcr.
  apply orb_false_elim in H. destruct H as [H Hl].
  apply orb_false_elim in H. destruct H as [Hc Hq].
  now rewrite Hc, Hq, Hl, Hcr.
Qed.

Lemma after_cons (fld : list ascii) (c : ascii) (s : string) :
  after (c :: fld) s = after fld (String c s).
Proof.
  unfold after. simpl. now rewrite <- app_assoc.
Qed.

Lemma text_after (s : string) : text (after [] s) = s.
Proof.
  unfold text, after. rewrite app_nil_r, rev_involutive.
  apply string_of_list_ascii_of_string.
Qed.

(** The rest of an unquoted field, followed by a separator. *)
Lemma read_unquoted (s : string) :
  needs_quote s = false -> has_CR s = false ->
  forall fld row done sep rest,
    is_sep sep ->
    read_from Unquoted fld row done (s ++ String sep rest)
    = let (row', done') := end_field sep (after fld s) row done in
      read_from Start [] row' done' rest.
Proof.
  induction s as [|c s IH]; intros Hq Hcr fld row done sep rest Hsep.
  - simpl. now rewrite (sep_test sep Hsep).
  - simpl in Hq, Hcr.
    apply orb_false_elim in Hq. destruct Hq as [Hc Hs].
    apply orb_false_elim in Hcr. destruct Hcr as [Hc' Hs'].
    destruct (plain_char c Hc Hc') as [H1 [H2 H3]].
    rewrite <- after_cons.
    rewrite <- (IH Hs Hs' (c :: fld) row done sep rest Hsep).
    simpl. now rewrite H1, H3.
Qed.

(** An unquoted field at the start of a field.  An empty field followed
    by a line feed at the start of a record would be an empty line. *)
Lemma read_plain (s : string) :
  needs_quote s = false -> has_CR s = false ->
  forall row done sep rest,
    is_sep sep ->
    s <> EmptyString \/ sep = comma \/ row <> [] ->
    read_from Start [] row done (s ++ String sep rest)
    = let (row', done') := end_field sep (after [] s) row done in
      read_from Start [] row' done' rest.
Proof.
  intros Hq Hcr row done sep rest Hsep Hne.
  destruct s as [|c s].
  - destruct Hne as [Hne | [-> | Hne]]; [congruence | reflexivity |].
    destruct Hsep as [-> | ->]; [reflexivity|].
    destruct row; [congruence | reflexivity].
  - simpl in Hq, Hcr.
    apply orb_false_elim in Hq. destruct Hq as [Hc Hs].
    apply orb_false_elim in Hcr. destruct Hcr as [Hc' Hs'].
    destruct (plain_char c Hc Hc') as [H1 [H2 H3]].
    rewrite <- after_cons.
    rewrite <- (read_unquoted s Hs Hs' [c] row done sep rest Hsep).
    simpl. now rewrite H1, H2, H3.
Qed.

(** The body of a quoted field, its closing quote mark and a separator:
    whatever the field holds, carriage returns included. *)
Lemma read_quoted (s : string) :
  forall fld row done sep rest,
    is_sep sep ->
    read_from Quoted fld row done
      (escape s ++ String dquote (String sep rest))
    = let (row', done') := end_field sep (after fld s) row done in
      read_from Start [] row' done' rest.
Proof.
  induction s as [|c s IH]; intros fld row done sep rest Hsep.
  - simpl. rewrite (sep_not_dquote sep Hsep), (sep_test sep Hsep).
    reflexivity.
  - rewrite <- after_cons, <- (IH (c :: fld) row done sep rest Hsep).
    simpl. destruct (Ascii.eqb c dquote) eqn:E.
    + simpl. rewrite E. reflexivity.
    + simpl. rewrite E. reflexivity.
Qed.

(** A written field followed by a separator is read back as the field. *)
Lemma read_field (s : string) (row : list string)
    (done : list (list string)) (sep : ascii) (rest : string) :
  bare_CR s = false ->
  is_sep sep ->
  s <> EmptyString \/ sep = comma \/ row <> [] ->
  read_from Start [] row done (field s ++ String sep rest)
  = let (row', done') := end_field sep (after [] s) row done in
    read_from Start [] row' done' rest.
Proof.
  intros Hcr Hsep Hne. unfold field, bare_CR in *.
  destruct (needs_quote s) eqn:Hq.
  - cbn [append]. rewrite append_assoc. cbn [append].
    cbn [read_from]. change (is_eol dquote) with false.
    change (Ascii.eqb dquote comma) with false.
    change (Ascii.eqb dquote dquote) with true. cbn iota.
    now apply read_quoted.
  - rewrite andb_true_r in Hcr. now apply read_plain.
Qed.

(** The fields of a record, joined and ended by a line feed, are read back
    as one more record. *)
Lemma read_join (fs : list string) :
  fs <> [] ->
  Forall (fun s => bare_CR s = false) fs ->
  forall row done rest,
    row <> [] \/ fs <> [EmptyString] ->
    read_from Start [] row done
      (join (map field fs) ++ String LF rest)
    = read_from Start [] [] ((rev row ++ fs) :: done) rest.
Proof.
  induction fs as [|f fs IH]; intros Hne Hcr row done rest Hrow;
    [congruence|].
  inversion Hcr as [|? ? Hf Hfs]; subst.
  destruct fs as [|g fs].
  - cbn [map join]. rewrite read_field; [|exact Hf|now right|].
    + unfold end_field. change (Ascii.eqb LF comma) with false. cbn iota.
      rewrite text_after. reflexivity.
    + destruct Hrow as [Hrow | Hrow]; [now right; right|].
      left. intros ->. now apply Hrow.
  - change (join (map field (f :: g :: fs)))
      with (field f ++ String comma (join (map field (g :: fs))))%string.
    rewrite append_assoc. cbn [append].
    rewrite read_field; [|exact Hf|now left|now right; left].
    unfold end_field. change (Ascii.eqb comma comma) with true. cbn iota.
    rewrite text_after.
    rewrite IH; [|discriminate|exact Hfs|left; discriminate].
    simpl. now rewrite <- app_assoc.
Qed.

(** A written line is read back as one more record. *)
Lemma read_line (fs : list string) (done : list (list string))
    (rest : string) :
  fs <> [] ->
  Forall (fun s => bare_CR s = false) fs ->
  read_from Start [] [] done (line fs ++ rest)
  = read_from Start [] [] (fs :: done) rest.
Proof.
  intros Hne Hcr.
  assert (Hcase : fs = [EmptyString]
                  \/ (fs <> [EmptyString]
                      /\ line fs = join (map field fs) ++ String LF "")%string).
  { destruct fs as [|[|c s] [|g t]]; try (right; split;
      [discriminate | reflexivity]). now left. }
  destruct Hcase as [-> | [Hfs ->]]; [reflexivity|].
  rewrite append_assoc. cbn [append].
  now rewrite read_join by auto.
Qed.

Lemma read_write_from (t : list (list string)) :
  Forall (fun fs => fs <> []) t ->
  Forall (Forall (fun s => bare_CR s = false)) t ->
  forall done, read_from Start [] [] done (write t) = Some (rev done ++ t).
Proof.
  induction 1 as [|fs t Hne Ht IH]; intros Hcr done.
  - simpl. now rewrite app_nil_r.
  - inversion Hcr as [|? ? Hfs Hrest]; subst.
    cbn [write]. rewrite read_line by assumption.
    rewrite (IH Hrest). simpl. now rewrite <- app_assoc.
Qed.

(** Reading what was written gives the table back, whatever commas, quote
    marks and line feeds its fields hold, as long as no carriage return is
    left outside quotes. *)
Lemma read_write (t : list (list string)) :
  Forall (fun fs => fs <> []) t ->
  Forall (Forall (fun s => bare_CR s = false)) t ->
  read (write t) = Some t.
Proof.
  intros H Hcr. unfold read. now rewrite read_write_from.
Qed.

Lemma record_length (df : DataFrame) (r : Row) :
  List.length (record df r) = List.length (columns df).
Proof.
  unfold record, columns. rewrite !length_app, length_map, length_seq.
  reflexivity.
Qed.












End CsvFacts.

(* ------------------------------------------------------------------ *)
(** ** Data explorer *)

Lemma reader_present (fd : DataFrame) (c : string) :
  has_column fd c = true -> exists f, reader fd c = Some f.
Proof.
  unfold has_column, columns. rewrite existsb_app.
  unfold required_columns, reader, int_reader. cbn [existsb].
  repeat match goal with
         | |- context [String.eqb c ?x] =>
             destruct (String.eqb c x); [intros _; eexists; reflexivity|]
         end.
  cbn [orb]. intro H.
  destruct (index_of c (extra_columns fd)) eqn:E.
  - eexists. reflexivity.
  - apply index_of_None in E. congruence.
Qed.

Lemma readers_present (fd : DataFrame) (cols : list string) :
  (forall c, In c cols -> has_column fd c = true) ->
  exists fs, readers fd cols = ret fs /\ List.length fs = List.length cols.
Proof.
  induction cols as [|c cols IH]; intro H.
  - exists []. split; reflexivity.
  - destruct (reader_present fd c (H c (or_introl eq_refl))) as [f Ef].
    destruct (IH (fun x Hx => H x (or_intror Hx))) as [fs [Efs Hlen]].
    exists (f :: fs). simpl. rewrite Ef, Efs, bind_ret.
    split; [reflexivity | now rewrite Hlen].
Qed.

(** With no column selected the explorer shows nothing, and offers no
    download either. *)
Lemma explorer_nothing_selected (fd : DataFrame) (w : Widgets) :
  columns_pick w = Some [] -> explorer fd w = ret tt.
Proof.
  intro H. unfold explorer. now rewrite H.
Qed.







(* ------------------------------------------------------------------ *)
(** ** Where a run can end early

    On a view with at least one row the only block that can raise is the
    demographic one. *)

Lemma completes_emit (e : Elem) : completes (emit e).
Proof. reflexivity. Qed.

Lemma completes_ret : completes (ret tt).
Proof. reflexivity. Qed.

Lemma completes_seq (m k : Run unit) :
  completes m -> completes k -> completes (m ;; k).
Proof.
  unfold completes. intros Hm Hk. now rewrite outcome_bind, Hm.
Qed.

Lemma completes_bind_ret {A} (a : A) (k : A -> Run unit) :
  completes (k a) -> completes (bind (ret a) k).
Proof.
  intro H. now rewrite bind_ret.
Qed.

Lemma completes_iterrows {A} (body : A -> Run unit) (l : list A) :
  (forall a, completes (body a)) -> completes (iterrows body l).
Proof.
  intro H. induction l as [|a l IH]; simpl.
  - apply completes_ret.
  - now apply completes_seq.
Qed.

Ltac completes_tac :=
  repeat first
    [ apply completes_emit
    | apply completes_ret
    | apply completes_seq
    | apply completes_iterrows; intro ].

Lemma completes_filter_status (data fd : DataFrame) :
  completes (filter_status data fd).
Proof.
  unfold filter_status. destruct (_ <? _)%nat; apply completes_emit.
Qed.

Lemma completes_kpis (fd : DataFrame) : completes (kpis fd).
Proof. unfold kpis. completes_tac. Qed.

Lemma completes_day_type_metric (label : string) (df : list (Agg Z)) :
  completes (day_type_metric label df).
Proof.
  unfold day_type_metric. destruct df as [|a df]; simpl Nat.ltb; cbn iota.
  - apply completes_emit.
  - unfold iloc0. apply completes_bind_ret, completes_emit.
Qed.

Lemma completes_temporal (fd : DataFrame) : completes (temporal fd).
Proof.
  unfold temporal. completes_tac; apply completes_day_type_metric.
Qed.

Lemma agg_enrollment_nonempty {K} `{KeyEq K} (key : Row -> K) (rs : list Row) :
  rs <> [] -> agg_enrollment key rs <> [].
Proof.
  destruct rs as [|r rs]; [congruence|]. intros _ E.
  assert (Hin : In (key r) (group_keys key (r :: rs)))
    by (apply In_group_keys; exists r; split; [now left | reflexivity]).
  rewrite <- agg_enrollment_keys, E in Hin. destruct Hin.
Qed.

Lemma sort_values_desc_nonempty {K} (l : list (Agg K)) :
  l <> [] -> sort_values_desc l <> [].
Proof.
  intros Hne E. apply Hne.
  apply Permutation_nil. rewrite <- E.
  apply sort_values_desc_Permutation.
Qed.

Lemma completes_district_view (fd : DataFrame) (s : string) :
  completes (district_view fd s).
Proof. unfold district_view. completes_tac. Qed.

Lemma completes_geographic (fd : DataFrame) (w : Widgets) :
  rows fd <> [] -> completes (geographic fd w).
Proof.
  intro Hne. unfold geographic. apply completes_seq; [|apply completes_seq].
  - unfold geographic_map. apply completes_seq; [apply completes_emit|].
    assert (Hmap := agg_enrollment_nonempty state (rows fd) Hne).
    fold (state_map_data fd) in Hmap.
    destruct (state_map_data fd) as [|a t]; [congruence|].
    unfold nlargest1, nsmallest1, iloc0.
    apply completes_bind_ret, completes_seq; [apply completes_emit|].
    apply completes_bind_ret. completes_tac.
    destruct (truthy _); [apply completes_district_view | apply completes_ret].
  - unfold geographic_states.
    assert (Hs := sort_values_desc_nonempty _
                    (agg_enrollment_nonempty state (rows fd) Hne)).
    fold (state_data fd) in Hs.
    destruct (sort_values_desc (state_data fd)) as [|a t]; [congruence|].
    completes_tac. unfold iloc0. apply completes_bind_ret. completes_tac.
  - unfold geographic_districts.
    assert (Hs := sort_values_desc_nonempty _
                    (agg_enrollment_nonempty
                       (fun r => (state r, district r)) (rows fd) Hne)).
    fold (district_data fd) in Hs.
    destruct (sort_values_desc (district_data fd)) as [|a t]; [congruence|].
    completes_tac.
Qed.

Lemma completes_comparative (fd : DataFrame) (w : Widgets) :
  completes (comparative fd w).
Proof.
  unfold comparative, state_comparison, year_over_year.
  apply completes_seq.
  - destruct (_ <? _)%nat; completes_tac.
  - destruct (yoy_table fd); completes_tac.
Qed.

Lemma completes_explorer (fd : DataFrame) (w : Widgets) :
  (forall c, In c (multiselect (firstn 10 (columns fd)) (columns_pick w)) ->
             has_column fd c = true) ->
  completes (explorer fd w).
Proof.
  intro Hcols. unfold explorer.
  destruct (readers_present fd _ Hcols) as [fs [Efs _]].
  destruct (_ <? _)%nat; [|apply completes_ret].
  unfold project. rewrite Efs, !bind_ret. completes_tac.
Qed.

Lemma getitem_numerical (fd : DataFrame) (c : string) :
  In c (numerical_cols fd) -> exists v, getitem fd c = ret v.
Proof.
  unfold numerical_cols, getitem, int_reader. intro Hin.
  repeat match goal with
         | |- context [String.eqb c ?x] =>
             destruct (String.eqb_spec c x); [eexists; reflexivity|]
         end.
  apply in_app_or in Hin. destruct Hin as [Hin | Hin].
  - simpl in Hin. intuition congruence.
  - destruct (index_of c (extra_columns fd)) eqn:E.
    + eexists. reflexivity.
    + apply index_of_None in E.
      assert (Ht : existsb (String.eqb c) (extra_columns fd) = true).
      { apply existsb_exists. exists c. split; [assumption|].
        apply String.eqb_refl. }
      congruence.
Qed.

Lemma completes_statistical (fd : DataFrame) (w : Widgets) :
  completes (statistical fd w).
Proof.
  unfold statistical.
  destruct (_ <? _)%nat; [|apply completes_ret].
  destruct (selectbox _ _) as [c|] eqn:E; [|apply completes_ret].
  unfold selectbox in E. apply nth_error_In in E.
  destruct (getitem_numerical fd c E) as [v Ev].
  rewrite Ev. apply completes_bind_ret. completes_tac.
Qed.

(** A run over a non-empty view, with columns of the view selected in the
    explorer, ends the way its demographic block ends. *)
Lemma nonempty_view_outcome (data : DataFrame) (sel : Selection) (w : Widgets) :
  let fd := filtered_data data sel in
  rows fd <> [] ->
  (forall c, In c (multiselect (firstn 10 (columns fd)) (columns_pick w)) ->
             has_column fd c = true) ->
  outcome (app data sel w) = outcome (demographic fd).
Proof.
  intros fd Hne Hcols. unfold app, dashboard. fold fd.
  rewrite outcome_bind, (completes_filter_status data fd).
  rewrite outcome_bind, (completes_kpis fd).
  rewrite outcome_bind, (completes_temporal fd).
  rewrite outcome_bind, (completes_geographic fd w Hne).
  rewrite outcome_bind.
  destruct (outcome (demographic fd)) as [e | []]; [reflexivity|].
  apply completes_seq; [apply completes_comparative|].
  apply completes_seq; [now apply completes_explorer|].
  apply completes_statistical.
Qed.

(** When [age_0_5] is not a column, the run over a non-empty view
    completes: the warning replaces the demographic figures and every other
    block is rendered. *)
Lemma missing_age_columns_warning (data : DataFrame) (sel : Selection)
    (w : Widgets) :
  let fd := filtered_data data sel in
  rows fd <> [] ->
  (forall c, In c (multiselect (firstn 10 (columns fd)) (columns_pick w)) ->
             has_column fd c = true) ->
  has_column fd "age_0_5" = false ->
  outcome (app data sel w) = inr tt
  /\ demographic fd
     = ([Note Warning "Age group data not available in filtered dataset" []],
        inr tt).
Proof.
  intros fd Hne Hcols Hage.
  rewrite (nonempty_view_outcome data sel w Hne Hcols).
  fold fd. now rewrite (demographic_warning fd Hage).
Qed.


(* ================================================================== *)
(** * Further properties of the script *)

(* ------------------------------------------------------------------ *)
(** ** The filter as an operation *)

Lemma DataFrame_eq (a b : DataFrame) :
  extra_columns a = extra_columns b -> rows a = rows b -> a = b.
Proof.
  destruct a, b. simpl. now intros -> ->.
Qed.

Lemma filter_length_le {A} (f : A -> bool) (l : list A) :
  (List.length (filter f l) <= List.length l)%nat.
Proof.
  induction l as [|a l IH]; simpl; [lia|]. destruct (f a); simpl; lia.
Qed.

Lemma filter_id_iff {A} (f : A -> bool) (l : list A) :
  forallb f l = true <-> filter f l = l.
Proof.
  induction l as [|a l IH]; simpl; [tauto|].
  destruct (f a) eqn:E; simpl.
  - rewrite IH. split; [now intros -> | now intros [= ->]].
  - split; [discriminate|]. intro H.
    assert (Hl := filter_length_le f l). rewrite H in Hl. simpl in Hl. lia.
Qed.

Lemma filter_short_iff {A} (f : A -> bool) (l : list A) :
  forallb f l = false <->
  (List.length (filter f l) < List.length l)%nat.
Proof.
  assert (Hle := filter_length_le f l).
  destruct (forallb f l) eqn:E.
  - apply filter_id_iff in E. rewrite E. split; [discriminate | lia].
  - split; [intros _ | reflexivity].
    destruct (Nat.eq_dec (List.length (filter f l)) (List.length l)) as [Heq|];
      [|lia].
    exfalso. assert (Hid : filter f l = l).
    { clear E Hle. induction l as [|a l IH]; [reflexivity|].
      simpl in *. destruct (f a); simpl in *.
      - f_equal. apply IH. lia.
      - assert (Hl := filter_length_le f l). lia. }
    apply filter_id_iff in Hid. congruence.
Qed.

(** X1. Filtering an already filtered view by a second selection keeps
    the records that pass both selections, in their order; the order of the
    two selections does not matter, and filtering twice by the same
    selection changes nothing. *)
Theorem filtered_data_compose (data : DataFrame) (sel1 sel2 : Selection) :
  rows (filtered_data (filtered_data data sel1) sel2)
  = filter (fun r => passes sel1 r && passes sel2 r) (rows data)
  /\ filtered_data (filtered_data data sel1) sel2
     = filtered_data (filtered_data data sel2) sel1
  /\ filtered_data (filtered_data data sel1) sel1 = filtered_data data sel1.
Proof.
  assert (Hrows : forall s1 s2,
            rows (filtered_data (filtered_data data s1) s2)
            = filter (fun r => passes s1 r && passes s2 r) (rows data)).
  { intros s1 s2. now rewrite !filtered_data_filter, filter_filter. }
  split; [apply Hrows|]. split.
  - apply DataFrame_eq.
    + now rewrite !filtered_data_columns.
    + rewrite !Hrows. apply filter_ext. intro r. apply andb_comm.
  - apply DataFrame_eq.
    + now rewrite !filtered_data_columns.
    + rewrite Hrows, filtered_data_filter. apply filter_ext. intro r.
      apply andb_diag.
Qed.

(** X2. The status line reads "showing all records" exactly when every
    record of the data set passes the filter; otherwise it reports the
    number of records kept, which is then smaller than the number loaded. *)
Theorem filter_status_cases (data : DataFrame) (sel : Selection) :
  let fd := filtered_data data sel in
  (len fd <= len data)%nat
  /\ (forallb (passes sel) (rows data) = true ->
      fd = data
      /\ filter_status data fd
         = emit (Note Success "Showing all records" [VNat (len data)]))
  /\ (forallb (passes sel) (rows data) = false ->
      (len fd < len data)%nat
      /\ filter_status data fd
         = emit (Note Info "Showing records out of total records (filtered)"
                   [VNat (len fd); VNat (len data)])).
Proof.
  intro fd. unfold len, filter_status, len.
  assert (Hr : rows fd = filter (passes sel) (rows data))
    by apply filtered_data_filter.
  rewrite Hr. split; [apply filter_length_le|]. split; intro H.
  - assert (Hid := H). apply filter_id_iff in Hid. split.
    + apply DataFrame_eq; [apply filtered_data_columns | now rewrite Hr].
    + rewrite Hid, Nat.ltb_irrefl. reflexivity.
  - apply filter_short_iff in H. split; [exact H|].
    apply Nat.ltb_lt in H. now rewrite H.
Qed.

(* ------------------------------------------------------------------ *)
(** ** The options offered in the sidebar *)

Lemma insert_Sorted_total {K} `{Key K}
    (total : forall a b : K, kle a b \/ kle b a) (k : K) (l : list K) :
  Sorted kle l -> Sorted kle (insert k l).
Proof.
  induction l as [|x t IH]; intro Hs; simpl.
  - repeat constructor.
  - destruct (kleb k x) eqn:E.
    + constructor; [assumption | now constructor].
    + assert (Hxk : kle x k) by (destruct (total k x) as [C|C];
                                  [unfold kle in C; congruence | exact C]).
      inversion Hs as [|? ? Hs' Hhd]; subst.
      constructor; [now apply IH|].
      destruct t as [|y t']; simpl.
      * now constructor.
      * destruct (kleb k y); constructor; [exact Hxk | now inversion Hhd].
Qed.

Lemma sorted_Sorted_total {K} `{Key K}
    (total : forall a b : K, kle a b \/ kle b a) (l : list K) :
  Sorted kle (sorted l).
Proof.
  induction l as [|x t IH]; simpl;
    [constructor | now apply insert_Sorted_total].
Qed.

Lemma mask_all (f : Row -> bool) (fd : DataFrame) :
  (forall r, In r (rows fd) -> f r = true) -> mask f fd = fd.
Proof.
  intro H. apply DataFrame_eq; [reflexivity|]. simpl.
  apply filter_id_iff, forallb_forall, H.
Qed.

Lemma has_All_Val (l : list Z) : has_All (map Val l) = false.
Proof.
  induction l as [|x l IH]; [reflexivity | exact IH].
Qed.

(** X3. Each sidebar list starts with the sentinel and goes on with the
    values found in the column of the loaded data, every value once, in
    ascending order. *)
Theorem sidebar_options (data : DataFrame) :
  (exists l, states data = "All" :: l
             /\ NoDup l /\ Sorted kle l
             /\ forall s, In s l <-> exists r, In r (rows data) /\ state r = s)
  /\ (exists l, years data = All :: map Val l
             /\ StronglySorted Z.lt l
             /\ forall y, In y l <-> exists r, In r (rows data) /\ year r = y)
  /\ (exists l, quarters data = All :: map Val l
             /\ StronglySorted Z.lt l
             /\ forall q, In q l <-> exists r, In r (rows data) /\ quarter r = q).
Proof.
  split; [|split].
  - exists (group_keys state (rows data)). split; [reflexivity|].
    split; [apply NoDup_group_keys|]. split.
    + apply (@sorted_Sorted_total string Key_string String.leb_total).
    + intro s. apply In_group_keys.
  - exists (group_keys year (rows data)). split; [reflexivity|].
    split; [apply group_keys_increasing | intro y; apply In_group_keys].
  - exists (group_keys quarter (rows data)). split; [reflexivity|].
    split; [apply group_keys_increasing | intro y; apply In_group_keys].
Qed.

(** X4. Ticking every value of a sidebar list by hand shows the same view
    as the sentinel alone. *)
Theorem every_option_is_All
    (data : DataFrame) (ss : list string) (ys qs : list Choice) (d : DayType) :
  filtered_data data (mkSel (tl (states data)) ys qs d)
  = filtered_data data (mkSel ["All"] ys qs d)
  /\ filtered_data data (mkSel ss (tl (years data)) qs d)
     = filtered_data data (mkSel ss [All] qs d)
  /\ filtered_data data (mkSel ss ys (tl (quarters data)) d)
     = filtered_data data (mkSel ss ys [All] d).
Proof.
  assert (Hs : filter_states (group_keys state (rows data)) data = data).
  { unfold filter_states.
    destruct (negb _ && _); [|reflexivity].
    apply mask_all. intros r Hr. apply isin_str_In, In_group_keys.
    now exists r. }
  unfold filtered_data, states, years, quarters.
  cbn [tl selected_states selected_years selected_quarters weekend_options].
  split; [|split].
  - fold (group_keys state (rows data)). now rewrite Hs.
  - fold (group_keys year (rows data)).
    unfold filter_years at 2. cbn [has_All existsb Choice_eqb orb negb andb].
    f_equal. f_equal.
    (* the year list is that of the data set, the frame filtered is the
       one the state filter left *)
    unfold filter_years.
    destruct (negb _ && _) eqn:G; [|reflexivity].
    apply mask_all. intros r Hr. apply isin_In, in_map, In_group_keys.
    exists r. split; [|reflexivity].
    apply In_filter_states in Hr. tauto.
  - fold (group_keys quarter (rows data)).
    unfold filter_quarters at 2. cbn [has_All existsb Choice_eqb orb negb andb].
    f_equal.
    unfold filter_quarters.
    destruct (negb _ && _) eqn:G; [|reflexivity].
    apply mask_all. intros r Hr. apply isin_In, in_map, In_group_keys.
    exists r. split; [|reflexivity].
    apply (In_filter_choice year) in Hr. destruct Hr as [Hr _].
    apply In_filter_states in Hr. tauto.
Qed.

(** X5. A single state, year or quarter picked from its sidebar list, the
    other filters left at their defaults, never gives an empty view. *)
Theorem listed_option_has_rows (data : DataFrame) :
  (forall s, In s (tl (states data)) ->
     rows (filtered_data data (mkSel [s] [All] [All] DayAll)) <> [])
  /\ (forall y, In (Val y) (tl (years data)) ->
     rows (filtered_data data (mkSel ["All"] [Val y] [All] DayAll)) <> [])
  /\ (forall q, In (Val q) (tl (quarters data)) ->
     rows (filtered_data data (mkSel ["All"] [All] [Val q] DayAll)) <> []).
Proof.
  assert (Hne : forall sel r, In r (rows data) -> passes sel r = true ->
                  rows (filtered_data data sel) <> []).
  { intros sel r Hin Hp E.
    assert (Hr : In r (rows (filtered_data data sel)))
      by (rewrite filtered_data_filter; apply filter_In; tauto).
    rewrite E in Hr. destruct Hr. }
  assert (Hval : forall (proj : Row -> Z) v,
            In (Val v) (map Val (group_keys proj (rows data))) ->
            exists r, In r (rows data) /\ proj r = v).
  { intros proj v Hin. apply in_map_iff in Hin.
    destruct Hin as [x [[= ->] Hx]]. now apply In_group_keys in Hx. }
  split; [|split].
  - intros s Hin. apply In_group_keys in Hin. destruct Hin as [r [Hr <-]].
    apply (Hne _ r Hr). unfold passes. simpl.
    now rewrite String.eqb_refl, !orb_true_r.
  - intros y Hin. destruct (Hval year y Hin) as [r [Hr <-]].
    apply (Hne _ r Hr). unfold passes. simpl.
    now rewrite Z.eqb_refl.
  - intros q Hin. destruct (Hval quarter q Hin) as [r [Hr <-]].
    apply (Hne _ r Hr). unfold passes. simpl.
    now rewrite Z.eqb_refl.
Qed.

(* ------------------------------------------------------------------ *)
(** ** Means and grouped tables *)

Lemma Qeq_bool_inject_Z (z : Z) : z <> 0 -> Qeq_bool (inject_Z z) 0 = false.
Proof.
  intro Hz. destruct (Qeq_bool (inject_Z z) 0) eqn:E; [|reflexivity].
  apply Qeq_bool_iff in E. now apply inject_Z_nonzero in E.
Qed.

Lemma fdiv_of_int (a b : Z) :
  b <> 0 -> fdiv (of_int a) (of_int b) = Fin (inject_Z a / inject_Z b).
Proof.
  intro Hb. unfold fdiv, of_int. now rewrite (Qeq_bool_inject_Z b Hb).
Qed.

Lemma mean_nonempty (l : list Z) :
  l <> [] ->
  Series.mean l
  = Fin (inject_Z (Series.sum l) / inject_Z (Z.of_nat (List.length l))).
Proof.
  intro Hne. unfold Series.mean. apply fdiv_of_int.
  destruct l; [congruence | simpl; lia].
Qed.

Lemma groupby_In {K} `{KeyEq K} (key : Row -> K) (rs : list Row) a :
  In a (agg_enrollment key rs) ->
  exists r, In r rs /\ key r = agg_key a.
Proof.
  intro Ha. apply In_group_keys. rewrite <- agg_enrollment_keys.
  now apply in_map.
Qed.

Lemma group_nonempty {K} `{KeyEq K} (key : Row -> K) (rs : list Row) r :
  In r rs -> group key rs (key r) <> [].
Proof.
  intros Hin E.
  assert (Hr : In r (group key rs (key r)))
    by (apply filter_In; split; [assumption | apply keqb_refl]).
  rewrite E in Hr. destruct Hr.
Qed.

(** X7. In every grouped table the keys are distinct values of the key
    column, no group is empty, and the average shown for a group is a number
    (never nan): the one that multiplied by the group's record count gives
    the group's total. *)
Theorem grouped_table_invariant {K} `{KeyEq K} (key : Row -> K)
    (rs : list Row) :
  NoDup (map agg_key (agg_enrollment key rs))
  /\ forall a, In a (agg_enrollment key rs) ->
       (exists r, In r rs /\ key r = agg_key a)
       /\ (1 <= Records a)%nat
       /\ exists q, Avg_Enrollment a = Fin q
                    /\ Qeq (q * inject_Z (Z.of_nat (Records a)))
                           (inject_Z (Total_Enrollment a)).
Proof.
  split.
  - rewrite agg_enrollment_keys. apply NoDup_group_keys.
  - intros a Ha. destruct (groupby_In key rs a Ha) as [r [Hr Hk]].
    destruct (agg_enrollment_In key rs a Ha) as [Ht [Hm Hn]].
    assert (Hg := group_nonempty key rs r Hr). rewrite Hk in Hg.
    split; [now exists r|]. split.
    + rewrite Hn. destruct (group key rs (agg_key a)); [congruence|simpl; lia].
    + assert (Hv : enrollments (group key rs (agg_key a)) <> [])
        by (unfold enrollments; destruct (group key rs (agg_key a));
            [congruence | discriminate]).
      eexists. split; [rewrite Hm; now apply mean_nonempty|].
      rewrite Ht, Hn. unfold enrollments at 2. rewrite length_map.
      field. apply inject_Z_nonzero.
      destruct (group key rs (agg_key a)); [congruence | simpl; lia].
Qed.

Lemma group_keys_length {K} `{KeyEq K} (key : Row -> K) (rs : list Row) :
  List.length (group_keys key rs) = nunique (map key rs).
Proof.
  unfold group_keys, nunique.
  apply Permutation_length, sorted_Permutation.
Qed.

Lemma agg_enrollment_length {K} `{KeyEq K} (key : Row -> K) (rs : list Row) :
  List.length (agg_enrollment key rs) = nunique (map key rs).
Proof.
  rewrite <- group_keys_length, <- agg_enrollment_keys. now rewrite length_map.
Qed.

Lemma NoDup_map_In_inj {A B} (f : A -> B) (l : list A) :
  NoDup (map f l) ->
  forall a b, In a l -> In b l -> f a = f b -> a = b.
Proof.
  induction l as [|x l IH]; simpl; intros Hnd a b Ha Hb E; [destruct Ha|].
  inversion Hnd as [|? ? Hnotin Hnd']; subst.
  destruct Ha as [<- | Ha], Hb as [<- | Hb]; auto.
  - exfalso. apply Hnotin. rewrite E. now apply in_map.
  - exfalso. apply Hnotin. rewrite <- E. now apply in_map.
Qed.

(** X8. The state count among the indicators is the number of rows of the
    state tables, sorted or not.  The district count among the indicators
    counts district names, while the district tab counts pairs of state and
    district: the indicator is never the larger one, it is strictly the
    smaller one whenever two records of different states carry the same
    district name, and the two agree when no district name occurs in two
    states. *)
Theorem indicator_counts (fd : DataFrame) :
  nunique (map state (rows fd)) = List.length (state_map_data fd)
  /\ nunique (map state (rows fd))
     = List.length (sort_values_desc (state_data fd))
  /\ (nunique (map district (rows fd))
      <= List.length (sort_values_desc (district_data fd)))%nat
  /\ ((exists r1 r2, In r1 (rows fd) /\ In r2 (rows fd)
                     /\ state r1 <> state r2 /\ district r1 = district r2) ->
      (nunique (map district (rows fd))
       < List.length (sort_values_desc (district_data fd)))%nat)
  /\ ((forall r1 r2, In r1 (rows fd) -> In r2 (rows fd) ->
                     district r1 = district r2 -> state r1 = state r2) ->
      nunique (map district (rows fd))
      = List.length (sort_values_desc (district_data fd))).
Proof.
  set (keys := group_keys (fun r => (state r, district r)) (rows fd)).
  assert (Hlen : List.length (sort_values_desc (district_data fd))
                 = List.length (map snd keys)).
  { rewrite (Permutation_length (sort_values_desc_Permutation _)).
    unfold district_data.
    now rewrite <- (length_map agg_key), agg_enrollment_keys, length_map. }
  assert (Hnd : NoDup keys) by apply NoDup_group_keys.
  assert (Hin : forall k, In k keys <->
                  exists r, In r (rows fd) /\ (state r, district r) = k)
    by (intro k; apply In_group_keys).
  assert (Hincl : incl (unique (map district (rows fd))) (map snd keys)).
  { intros dn Hd. apply (proj1 (In_unique _ _)) in Hd.
    apply in_map_iff in Hd. destruct Hd as [r [<- Hr]].
    apply in_map_iff. exists (state r, district r). split; [reflexivity|].
    apply Hin. now exists r. }
  assert (Hle : (nunique (map district (rows fd))
                 <= List.length (map snd keys))%nat)
    by (apply NoDup_incl_length; [apply NoDup_unique | exact Hincl]).
  split; [|split; [|split; [|split]]].
  - unfold state_map_data. now rewrite agg_enrollment_length.
  - rewrite (Permutation_length (sort_values_desc_Permutation _)).
    unfold state_data. now rewrite agg_enrollment_length.
  - now rewrite Hlen.
  - intros [r1 [r2 [Hr1 [Hr2 [Hs Hd]]]]]. rewrite Hlen.
    destruct (Nat.lt_ge_cases (nunique (map district (rows fd)))
                (List.length (map snd keys))) as [Hlt | Hge];
      [exact Hlt|].
    exfalso. apply Hs.
    assert (Hnd' : NoDup (map snd keys))
      by (apply (NoDup_incl_NoDup (NoDup_unique _) Hge Hincl)).
    assert (E : (state r1, district r1) = (state r2, district r2)).
    { apply (NoDup_map_In_inj snd keys Hnd').
      - apply Hin. now exists r1.
      - apply Hin. now exists r2.
      - exact Hd. }
    now injection E.
  - intro Hone. rewrite Hlen. apply Nat.le_antisymm; [exact Hle|].
    apply NoDup_incl_length.
    + apply NoDup_map_NoDup_ForallPairs; [|exact Hnd].
      intros x y Hx Hy E. apply Hin in Hx, Hy.
      destruct Hx as [r1 [Hr1 <-]]. destruct Hy as [r2 [Hr2 <-]].
      simpl in E. now rewrite E, (Hone r1 r2 Hr1 Hr2 E).
    + intros dn Hd. apply in_map_iff in Hd.
      destruct Hd as [k [<- Hk]]. apply Hin in Hk.
      destruct Hk as [r [Hr <-]]. cbn [snd]. apply In_unique.
      apply in_map_iff. now exists r.
Qed.

Lemma grouped_table_invariant_witness :
  NoDup (map agg_key (agg_enrollment state (rows Examples.sample_data)))
  /\ forall a, In a (agg_enrollment state (rows Examples.sample_data)) ->
       (exists r, In r (rows Examples.sample_data) /\ state r = agg_key a)
       /\ (1 <= Records a)%nat
       /\ exists q, Avg_Enrollment a = Fin q
                    /\ Qeq (q * inject_Z (Z.of_nat (Records a)))
                           (inject_Z (Total_Enrollment a)).
Proof.
  exact (grouped_table_invariant state (rows Examples.sample_data)).
Defined.

(* ------------------------------------------------------------------ *)
(** ** Ranking *)

Section RankingOrder.
Context {K : Type}.

Lemma argbest_spec (better : Z -> Z -> bool) (ge : Z -> Z -> Prop)
    (ge_refl : forall x, ge x x)
    (ge_trans : forall x y z, ge x y -> ge y z -> ge x z)
    (better_ge : forall x y, if better x y then ge x y else ge y x)
    (l : list (Agg K)) :
  forall best,
    In (argbest better best l) (best :: l)
    /\ forall a, In a (best :: l) ->
         ge (Total_Enrollment (argbest better best l)) (Total_Enrollment a).
Proof.
  induction l as [|x l IH]; intro best; simpl.
  - split; [now left|]. intros a [<- | []]. apply ge_refl.
  - specialize (better_ge (Total_Enrollment x) (Total_Enrollment best)).
    destruct (better (Total_Enrollment x) (Total_Enrollment best)).
    + destruct (IH x) as [Hin Hge]. split.
      * destruct Hin as [<- | Hin]; [right; now left | right; now right].
      * intros a [<- | [<- | Ha]].
        -- eapply ge_trans; [apply Hge; now left | exact better_ge].
        -- apply Hge. now left.
        -- apply Hge. now right.
    + destruct (IH best) as [Hin Hge]. split.
      * destruct Hin as [<- | Hin]; [now left | right; now right].
      * intros a [<- | [<- | Ha]].
        -- apply Hge. now left.
        -- eapply ge_trans; [apply Hge; now left | exact better_ge].
        -- apply Hge. now right.
Qed.

Lemma nlargest1_spec (a : Agg K) (t : list (Agg K)) :
  exists top, nlargest1 (a :: t) = [top] /\ In top (a :: t)
              /\ forall b, In b (a :: t) ->
                   Total_Enrollment b <= Total_Enrollment top.
Proof.
  exists (argbest Z.gtb a t). split; [reflexivity|].
  apply (argbest_spec Z.gtb (fun x y => y <= x)).
  - intro; lia.
  - intros; lia.
  - intros x y. destruct (Z.gtb_spec x y); lia.
Qed.

Lemma nsmallest1_spec (a : Agg K) (t : list (Agg K)) :
  exists bottom, nsmallest1 (a :: t) = [bottom] /\ In bottom (a :: t)
                 /\ forall b, In b (a :: t) ->
                      Total_Enrollment bottom <= Total_Enrollment b.
Proof.
  exists (argbest Z.ltb a t). split; [reflexivity|].
  apply (argbest_spec Z.ltb (fun x y => x <= y)).
  - intro; lia.
  - intros; lia.
  - intros x y. destruct (Z.ltb_spec x y); lia.
Qed.

Lemma insert_desc_In (a x : Agg K) (l : list (Agg K)) :
  In x (insert_desc a l) <-> x = a \/ In x l.
Proof.
  split; intro Hx.
  - apply (Permutation_in _ (insert_desc_Permutation a l)) in Hx.
    destruct Hx; [left; congruence | now right].
  - apply (Permutation_in _ (Permutation_sym (insert_desc_Permutation a l))).
    destruct Hx; [left; congruence | now right].
Qed.

Lemma insert_desc_sorted (a : Agg K) (l : list (Agg K)) :
  StronglySorted total_ge l -> StronglySorted total_ge (insert_desc a l).
Proof.
  induction 1 as [|x l Hs IH Hall]; simpl.
  - repeat constructor.
  - destruct (Z.leb_spec (Total_Enrollment x) (Total_Enrollment a)) as [Hle|Hlt].
    + constructor; [now constructor|].
      constructor; [exact Hle|].
      rewrite Forall_forall in *. intros y Hy.
      unfold total_ge in *. specialize (Hall y Hy). lia.
    + constructor; [exact IH|].
      rewrite Forall_forall in *. intros y Hy.
      apply insert_desc_In in Hy. destruct Hy as [-> | Hy].
      * unfold total_ge. lia.
      * now apply Hall.
Qed.

Lemma sort_values_desc_sorted (l : list (Agg K)) :
  StronglySorted total_ge (sort_values_desc l).
Proof.
  induction l as [|x l IH]; simpl;
    [constructor | now apply insert_desc_sorted].
Qed.

Lemma sorted_head_skip (s : list (Agg K)) :
  StronglySorted total_ge s ->
  forall n a b, In a (firstn n s) -> In b (skipn n s) -> total_ge a b.
Proof.
  induction 1 as [|x s Hs IH Hall]; intros n a b Ha Hb.
  - destruct n; destruct Ha.
  - destruct n as [|n]; [destruct Ha|]. simpl in Ha, Hb.
    destruct Ha as [<- | Ha].
    + rewrite Forall_forall in Hall. apply Hall.
      rewrite <- (firstn_skipn n s). apply in_or_app. now right.
    + exact (IH n a b Ha Hb).
Qed.

End RankingOrder.

(** X9. Sorting a grouped table by total, descending, rearranges its rows
    without losing or repeating any, and leaves every row's total at least
    the totals of the rows after it; so the first n rows taken for a chart
    or a top list hold totals at least as large as every row left out. *)
Theorem sort_values_desc_top {K} (t : list (Agg K)) :
  Permutation (sort_values_desc t) t
  /\ StronglySorted total_ge (sort_values_desc t)
  /\ forall n a b,
       In a (head n (sort_values_desc t)) ->
       In b (skipn n (sort_values_desc t)) ->
       Total_Enrollment b <= Total_Enrollment a.
Proof.
  split; [apply sort_values_desc_Permutation|].
  split; [apply sort_values_desc_sorted|].
  intros n a b Ha Hb.
  exact (sorted_head_skip _ (sort_values_desc_sorted t) n a b Ha Hb).
Qed.

(** X10. On a view with at least one row the map tab finds a state with
    the highest total and one with the lowest: both are rows of the state
    table and every state's total lies between theirs. *)
Theorem top_and_bottom_state (fd : DataFrame) :
  rows fd <> [] ->
  exists top_state bottom_state,
    iloc0 (nlargest1 (state_map_data fd)) = ret top_state
    /\ iloc0 (nsmallest1 (state_map_data fd)) = ret bottom_state
    /\ In top_state (state_map_data fd)
    /\ In bottom_state (state_map_data fd)
    /\ forall a, In a (state_map_data fd) ->
         Total_Enrollment bottom_state <= Total_Enrollment a
         /\ Total_Enrollment a <= Total_Enrollment top_state.
Proof.
  intro Hne.
  assert (Hmap := agg_enrollment_nonempty state (rows fd) Hne).
  fold (state_map_data fd) in Hmap.
  destruct (state_map_data fd) as [|a t]; [congruence|].
  destruct (nlargest1_spec a t) as [top [Et [Hint Htop]]].
  destruct (nsmallest1_spec a t) as [bot [Eb [Hinb Hbot]]].
  exists top, bot. rewrite Et, Eb.
  repeat split; auto.
Qed.

Lemma top_and_bottom_state_witness :
  exists top_state bottom_state,
    iloc0 (nlargest1 (state_map_data Examples.sample_data)) = ret top_state
    /\ iloc0 (nsmallest1 (state_map_data Examples.sample_data))
       = ret bottom_state
    /\ In top_state (state_map_data Examples.sample_data)
    /\ In bottom_state (state_map_data Examples.sample_data)
    /\ forall a, In a (state_map_data Examples.sample_data) ->
         Total_Enrollment bottom_state <= Total_Enrollment a
         /\ Total_Enrollment a <= Total_Enrollment top_state.
Proof.
  apply (top_and_bottom_state Examples.sample_data). discriminate.
Defined.

Lemma fold_left_max_spec (t : list Z) :
  forall x, In (fold_left Z.max t x) (x :: t)
            /\ forall y, In y (x :: t) -> y <= fold_left Z.max t x.
Proof.
  induction t as [|z t IH]; intro x; simpl.
  - split; [now left|]. intros y [<- | []]. lia.
  - destruct (IH (Z.max x z)) as [Hin Hle]. split.
    + destruct Hin as [E | Hin]; [|right; now right].
      rewrite <- E. destruct (Z.max_spec x z) as [[_ ->] | [_ ->]];
        [right; now left | now left].
    + intros y [E | [E | Hy]]; [| |apply Hle; now right];
        specialize (Hle (Z.max x z) (or_introl eq_refl)); lia.
Qed.

Lemma fold_left_min_spec (t : list Z) :
  forall x, In (fold_left Z.min t x) (x :: t)
            /\ forall y, In y (x :: t) -> fold_left Z.min t x <= y.
Proof.
  induction t as [|z t IH]; intro x; simpl.
  - split; [now left|]. intros y [<- | []]. lia.
  - destruct (IH (Z.min x z)) as [Hin Hle]. split.
    + destruct Hin as [E | Hin]; [|right; now right].
      rewrite <- E. destruct (Z.min_spec x z) as [[_ ->] | [_ ->]];
        [now left | right; now left].
    + intros y [E | [E | Hy]]; [| |apply Hle; now right];
        specialize (Hle (Z.min x z) (or_introl eq_refl)); lia.
Qed.

(** X11. On a view with at least one row the three places that report the
    leading state agree on its total: the highest-enrollment state of the
    map tab, the first row of the sorted state table ("Top State") and the
    maximum shown as "Highest Enrollment". *)
Theorem highest_enrollment_agrees (fd : DataFrame) :
  rows fd <> [] ->
  exists top_state first,
    iloc0 (nlargest1 (state_map_data fd)) = ret top_state
    /\ iloc0 (sort_values_desc (state_data fd)) = ret first
    /\ Total_Enrollment first = Total_Enrollment top_state
    /\ Stats.max (map Total_Enrollment (sort_values_desc (state_data fd)))
       = VInt (Total_Enrollment top_state).
Proof.
  intro Hne.
  assert (Hmap := agg_enrollment_nonempty state (rows fd) Hne).
  assert (Hperm := sort_values_desc_Permutation (state_data fd)).
  assert (Hsorted := sort_values_desc_sorted (state_data fd)).
  assert (Hs := sort_values_desc_nonempty _ Hmap).
  fold (state_data fd) in Hs.
  change (state_map_data fd) with (state_data fd).
  fold (state_data fd) in Hmap.
  destruct (state_data fd) as [|a t] eqn:Et; [congruence|].
  destruct (nlargest1_spec a t) as [top [Etop [Hint Htop]]].
  destruct (sort_values_desc (a :: t)) as [|first rest] eqn:Es; [congruence|].
  exists top, first. rewrite Etop.
  assert (Hfirst : In first (a :: t))
    by (apply (Permutation_in _ Hperm); now left).
  assert (Htop_s : In top (first :: rest))
    by (apply (Permutation_in _ (Permutation_sym Hperm)); exact Hint).
  assert (Heq : Total_Enrollment first = Total_Enrollment top).
  { apply Z.le_antisymm; [now apply Htop|].
    destruct Htop_s as [<- | Hr]; [lia|].
    inversion Hsorted as [|? ? _ Hall]; subst.
    rewrite Forall_forall in Hall. exact (Hall top Hr). }
  repeat split; [exact Heq|].
  cbn [map Stats.max].
  destruct (fold_left_max_spec (map Total_Enrollment rest)
              (Total_Enrollment first)) as [Hin Hle].
  f_equal. apply Z.le_antisymm.
  - change (Total_Enrollment first :: map Total_Enrollment rest)
      with (map Total_Enrollment (first :: rest)) in Hin.
    apply in_map_iff in Hin. destruct Hin as [c [<- Hc]].
    apply Htop. now apply (Permutation_in _ Hperm).
  - apply Hle.
    change (Total_Enrollment first :: map Total_Enrollment rest)
      with (map Total_Enrollment (first :: rest)).
    now apply in_map.
Qed.

Lemma highest_enrollment_agrees_witness :
  exists top_state first,
    iloc0 (nlargest1 (state_map_data Examples.sample_data)) = ret top_state
    /\ iloc0 (sort_values_desc (state_data Examples.sample_data)) = ret first
    /\ Total_Enrollment first = Total_Enrollment top_state
    /\ Stats.max (map Total_Enrollment
                    (sort_values_desc (state_data Examples.sample_data)))
       = VInt (Total_Enrollment top_state).
Proof.
  apply (highest_enrollment_agrees Examples.sample_data). discriminate.
Defined.

(* ------------------------------------------------------------------ *)
(** ** Weekday and weekend averages *)

Lemma filter_map_key {A B} (f : A -> B) (p : B -> bool) (l : list A) :
  filter p (map f l) = map f (filter (fun x => p (f x)) l).
Proof.
  induction l as [|a l IH]; simpl; [reflexivity|].
  destruct (p (f a)); simpl; now rewrite IH.
Qed.

Lemma filter_eqb_NoDup (v : Z) (ks : list Z) :
  NoDup ks ->
  filter (fun k => Z.eqb k v) ks = if existsb (fun k => Z.eqb k v) ks
                                   then [v] else [].
Proof.
  induction 1 as [|k ks Hnotin Hnd IH]; simpl; [reflexivity|].
  destruct (Z.eqb_spec k v) as [-> | Hne]; simpl.
  - assert (Hno : existsb (fun k => Z.eqb k v) ks = false).
    { destruct (existsb _ ks) eqn:E; [|reflexivity].
      apply existsb_exists in E. destruct E as [x [Hx Ex]].
      apply Z.eqb_eq in Ex. subst. contradiction. }
    rewrite Hno in IH. now rewrite IH.
  - exact IH.
Qed.

Lemma of_Type_rows (name : string) (v : Z) (fd : DataFrame) :
  (name = "Weekday" /\ v = 0) \/ (name = "Weekend" /\ v = 1) ->
  of_Type name (weekend_comparison fd)
  = match filter (fun r => Z.eqb (is_weekend r) v) (rows fd) with
    | [] => []
    | part => [mkAgg v (Series.sum (enrollments part))
                 (Series.mean (enrollments part))
                 (List.length (enrollments part))]
    end.
Proof.
  intro Hnv.
  assert (Htest : forall a : Agg Z,
            match weekend_Type (agg_key a) with
            | VStr s => String.eqb s name
            | _ => false
            end = Z.eqb (agg_key a) v).
  { intro a. destruct Hnv as [[-> ->] | [-> ->]];
      destruct (agg_key a) as [|[p|p|]|p]; reflexivity. }
  unfold of_Type. rewrite (filter_ext _ _ Htest).
  unfold weekend_comparison, agg_enrollment, groupby.
  rewrite map_map, filter_map_key. cbn [agg_key fst].
  rewrite (filter_eqb_NoDup v _ (NoDup_group_keys is_weekend (rows fd))).
  change (fun r => Z.eqb (is_weekend r) v)
    with (fun r => keqb (is_weekend r) v).
  fold (group is_weekend (rows fd) v).
  destruct (existsb _ _) eqn:E.
  - apply existsb_exists in E. destruct E as [k [Hk Ek]].
    apply Z.eqb_eq in Ek. subst k. apply In_group_keys in Hk.
    destruct Hk as [r [Hr Hv]].
    assert (Hg := group_nonempty is_weekend (rows fd) r Hr). rewrite Hv in Hg.
    cbn [map snd].
    destruct (group is_weekend (rows fd) v); [congruence | reflexivity].
  - cbn [map].
    destruct (group is_weekend (rows fd) v) as [|r g] eqn:Eg; [reflexivity|].
    exfalso.
    assert (Hr : In r (group is_weekend (rows fd) v))
      by (rewrite Eg; now left).
    apply filter_In in Hr. destruct Hr as [Hr Hk].
    assert (Hex : existsb (fun k => Z.eqb k v)
                    (group_keys is_weekend (rows fd)) = true).
    { apply existsb_exists. exists v. split; [|apply Z.eqb_refl].
      apply In_group_keys. exists r. split; [exact Hr|].
      now apply Z.eqb_eq in Hk. }
    congruence.
Qed.

(** X12. The weekday average shows "N/A" exactly when the view has no
    record with weekend flag 0, and otherwise the mean enrollment of those
    records; the weekend average does the same with flag 1.  Records with
    any other flag enter neither. *)
Theorem day_type_averages (fd : DataFrame) :
  let part v := filter (fun r => Z.eqb (is_weekend r) v) (rows fd) in
  let shown label v :=
    emit (Metric label
            (match part v with
             | [] => VStr "N/A"
             | rs => VFloat (Series.mean (enrollments rs))
             end) None) in
  day_type_metric "Weekday Avg Enrollment"
    (of_Type "Weekday" (weekend_comparison fd))
  = shown "Weekday Avg Enrollment" 0
  /\ day_type_metric "Weekend Avg Enrollment"
       (of_Type "Weekend" (weekend_comparison fd))
     = shown "Weekend Avg Enrollment" 1.
Proof.
  intros part shown. unfold shown, part. split.
  - rewrite (of_Type_rows "Weekday" 0) by tauto.
    destruct (filter _ (rows fd)); reflexivity.
  - rewrite (of_Type_rows "Weekend" 1) by tauto.
    destruct (filter _ (rows fd)); reflexivity.
Qed.

(* ------------------------------------------------------------------ *)
(** ** Drill-down and comparison *)

Lemma selectbox_In {A} (options : list A) (pick : nat) (x : A) :
  selectbox options pick = Some x -> In x options.
Proof.
  unfold selectbox. apply nth_error_In.
Qed.

Lemma truthy_Some (o : option string) (s : string) :
  truthy o = Some s -> o = Some s /\ s <> EmptyString.
Proof.
  destruct o as [[|c t]|]; simpl; intro H; try discriminate.
  injection H as <-. split; [reflexivity | discriminate].
Qed.

Lemma state_row (fd : DataFrame) (s : string) :
  (exists r, In r (rows fd) /\ state r = s) ->
  In (mkAgg s (Series.sum (enrollments (group state (rows fd) s)))
        (Series.mean (enrollments (group state (rows fd) s)))
        (List.length (enrollments (group state (rows fd) s))))
     (state_map_data fd).
Proof.
  intro Hs. apply In_group_keys in Hs.
  unfold state_map_data, agg_enrollment, groupby. rewrite map_map.
  apply in_map_iff. exists s. split; [reflexivity | exact Hs].
Qed.

(** X13. The state offered for the district drill-down is always a state
    of the view.  Its district table is never empty and has exactly one row
    for each district of that state's records: the keys are distinct, every
    district of the state is among them and no other name is.  Each row
    carries the total of the records of its district within the state, the
    rows come in descending order of that total, and the "Total Enrollments"
    of the table is the total of the state's row in the state table. *)
Theorem drill_down_state (fd : DataFrame) (w : Widgets) (s : string) :
  truthy (selectbox (sorted (unique (map state (rows fd)))) (map_state_pick w))
  = Some s ->
  let own := filter (fun r => String.eqb (state r) s) (rows fd) in
  own <> []
  /\ district_summary fd s <> []
  /\ List.length (district_summary fd s) = nunique (map district own)
  /\ NoDup (map agg_key (district_summary fd s))
  /\ (forall d, In d (map agg_key (district_summary fd s)) <->
                exists r, In r (rows fd) /\ state r = s /\ district r = d)
  /\ (forall a, In a (district_summary fd s) ->
        Total_Enrollment a
        = Series.sum
            (map total_enrollment
               (filter (fun r => String.eqb (state r) s
                                 && String.eqb (district r) (agg_key a))
                       (rows fd)))
        /\ Records a
           = List.length
               (filter (fun r => String.eqb (state r) s
                                 && String.eqb (district r) (agg_key a))
                       (rows fd)))
  /\ StronglySorted total_ge (district_summary fd s)
  /\ exists a, In a (state_map_data fd) /\ agg_key a = s
               /\ Total_Enrollment a
                  = Series.sum (map Total_Enrollment (district_summary fd s)).
Proof.
  intros Hsel own.
  apply truthy_Some in Hsel. destruct Hsel as [Hsel _].
  apply selectbox_In in Hsel.
  fold (group_keys state (rows fd)) in Hsel.
  apply In_group_keys in Hsel.
  assert (Hown : own <> []).
  { destruct Hsel as [r [Hr Hs]].
    assert (Hg := group_nonempty state (rows fd) r Hr). now rewrite Hs in Hg. }
  assert (Hperm := sort_values_desc_Permutation (agg_enrollment district own)).
  assert (Hsum : district_summary fd s
                 = sort_values_desc (agg_enrollment district own))
    by reflexivity.
  split; [exact Hown|]. split; [|split; [|split; [|split; [|split; [|split]]]]].
  - rewrite Hsum.
    apply sort_values_desc_nonempty, agg_enrollment_nonempty, Hown.
  - rewrite Hsum, (Permutation_length Hperm). apply agg_enrollment_length.
  - rewrite Hsum.
    apply (Permutation_NoDup (Permutation_map agg_key (Permutation_sym Hperm))).
    rewrite agg_enrollment_keys. apply NoDup_group_keys.
  - intro d. rewrite Hsum.
    rewrite (Permutation_in' (eq_refl d) (Permutation_map agg_key Hperm)).
    rewrite agg_enrollment_keys, In_group_keys. unfold own.
    split.
    + intros [r [Hr Hd]]. apply filter_In in Hr. destruct Hr as [Hr Hs].
      apply String.eqb_eq in Hs. now exists r.
    + intros [r [Hr [Hs Hd]]]. exists r. split; [|exact Hd].
      apply filter_In. split; [exact Hr | now apply String.eqb_eq].
  - intros a Ha. rewrite Hsum in Ha. apply (Permutation_in _ Hperm) in Ha.
    destruct (agg_enrollment_In district own a Ha) as [Ht [_ Hn]].
    assert (E : group district own (agg_key a)
                = filter (fun r => String.eqb (state r) s
                                   && String.eqb (district r) (agg_key a))
                         (rows fd)).
    { unfold group, own. rewrite filter_filter.
      apply filter_ext. intro r. reflexivity. }
    rewrite Ht, Hn, E. split; reflexivity.
  - rewrite Hsum. apply sort_values_desc_sorted.
  - eexists. split; [apply (state_row fd s Hsel)|]. split; [reflexivity|].
    cbn [Total_Enrollment]. rewrite Hsum.
    rewrite (sum_Permutation _ _ (Permutation_map Total_Enrollment Hperm)).
    now rewrite agg_enrollment_sum.
Qed.

Lemma drill_down_state_witness :
  let own := filter (fun r => String.eqb (state r) "Goa")
               (rows Examples.sample_data) in
  own <> []
  /\ district_summary Examples.sample_data "Goa" <> []
  /\ List.length (district_summary Examples.sample_data "Goa")
     = nunique (map district own)
  /\ NoDup (map agg_key (district_summary Examples.sample_data "Goa"))
  /\ (forall d, In d (map agg_key (district_summary Examples.sample_data "Goa"))
                <-> exists r, In r (rows Examples.sample_data)
                              /\ state r = "Goa" /\ district r = d)
  /\ (forall a, In a (district_summary Examples.sample_data "Goa") ->
        Total_Enrollment a
        = Series.sum
            (map total_enrollment
               (filter (fun r => String.eqb (state r) "Goa"
                                 && String.eqb (district r) (agg_key a))
                       (rows Examples.sample_data)))
        /\ Records a
           = List.length
               (filter (fun r => String.eqb (state r) "Goa"
                                 && String.eqb (district r) (agg_key a))
                       (rows Examples.sample_data)))
  /\ StronglySorted total_ge (district_summary Examples.sample_data "Goa")
  /\ exists a, In a (state_map_data Examples.sample_data)
               /\ agg_key a = "Goa"
               /\ Total_Enrollment a
                  = Series.sum (map Total_Enrollment
                                  (district_summary Examples.sample_data "Goa")).
Proof.
  apply (drill_down_state Examples.sample_data Examples.untouched "Goa").
  reflexivity.
Defined.

Lemma group_of_compared (fd : DataFrame) (w : Widgets) (s : string) :
  In s (compare_states fd w) ->
  group state (rows (compare_data fd w)) s = group state (rows fd) s.
Proof.
  intro Hs. unfold group, compare_data. cbn [mask rows].
  rewrite filter_filter. apply filter_ext_in. intros r _.
  destruct (String.eqb_spec (state r) s) as [-> | Hne].
  - apply isin_str_In in Hs. unfold keqb; simpl.
    now rewrite Hs, String.eqb_refl.
  - unfold keqb; simpl. apply String.eqb_neq in Hne. rewrite Hne.
    apply andb_false_r.
Qed.

(** X14. The comparison table has one row for each compared state that
    occurs in the view and no other row; the figures of a row are computed
    from all of that state's records in the view, so its total is the one of
    the state table.  With no state selected nothing is shown. *)
Theorem comparison_table (fd : DataFrame) (w : Widgets) :
  (forall s, In s (map fst (groupby state (rows (compare_data fd w)))) <->
             In s (compare_states fd w)
             /\ exists r, In r (rows fd) /\ state r = s)
  /\ NoDup (map fst (groupby state (rows (compare_data fd w))))
  /\ (forall g, In g (groupby state (rows (compare_data fd w))) ->
        snd g = group state (rows fd) (fst g)
        /\ exists a, In a (state_map_data fd) /\ agg_key a = fst g
                     /\ stats_row g
                        = [VStr (agg_key a); VInt (Total_Enrollment a);
                           VFloat (Avg_Enrollment a);
                           VFloat (Stats.median (enrollments (snd g)));
                           VStd (Stats.variance (enrollments (snd g)))])
  /\ (compare_states fd w = [] -> state_comparison fd w = ret tt)
  /\ (compare_states fd w <> [] ->
      exists chart,
        state_comparison fd w
        = (emit chart ;;
           emit (Table ["State"; "Total"; "Mean"; "Median"; "Std Dev"]
                   (state_stats fd w)))).
Proof.
  assert (Hkeys : map fst (groupby state (rows (compare_data fd w)))
                  = group_keys state (rows (compare_data fd w))).
  { unfold groupby. rewrite map_map. apply map_id. }
  assert (Hin : forall s, In s (group_keys state (rows (compare_data fd w))) <->
                  In s (compare_states fd w)
                  /\ exists r, In r (rows fd) /\ state r = s).
  { intro s. rewrite In_group_keys. unfold compare_data. cbn [mask rows].
    split.
    - intros [r [Hr Hs]]. apply filter_In in Hr. destruct Hr as [Hr Hc].
      apply isin_str_In in Hc. subst s. split; [exact Hc | now exists r].
    - intros [Hc [r [Hr Hs]]]. exists r. split; [|exact Hs].
      apply filter_In. split; [exact Hr|]. apply isin_str_In. now rewrite Hs. }
  split; [|split; [|split; [|split]]].
  - intro s. rewrite Hkeys. apply Hin.
  - rewrite Hkeys. apply NoDup_group_keys.
  - intros g Hg. unfold groupby in Hg. apply in_map_iff in Hg.
    destruct Hg as [s [<- Hs]]. cbn [fst snd].
    apply Hin in Hs. destruct Hs as [Hc Hex].
    rewrite (group_of_compared fd w s Hc). split; [reflexivity|].
    eexists. split; [apply (state_row fd s Hex)|]. split; reflexivity.
  - unfold state_comparison. fold (compare_states fd w). now intros ->.
  - intro Hne. unfold state_comparison. fold (compare_states fd w).
    destruct (compare_states fd w) as [|c cs] eqn:E; [congruence|].
    cbn [List.length Nat.ltb Nat.leb]. eexists. unfold state_stats, compare_data.
    rewrite E. reflexivity.
Qed.

(* ------------------------------------------------------------------ *)
(** ** Statistical summary *)

Lemma fdiv_Fin_of_int (a : Q) (b : Z) :
  b <> 0 -> fdiv (Fin a) (of_int b) = Fin (a / inject_Z b).
Proof.
  intro Hb. unfold fdiv, of_int. now rewrite (Qeq_bool_inject_Z b Hb).
Qed.

Lemma sum_squares_nonneg (d : list Q) :
  Qle 0 (fold_right Qplus 0%Q (map (fun q => Qmult q q) d)).
Proof.
  induction d as [|q d IH]; simpl; [apply Qle_refl|].
  rewrite <- (Qplus_0_l 0) at 1.
  apply Qplus_le_compat; [|exact IH].
  destruct (Qlt_le_dec q 0) as [Hneg | Hpos].
  - setoid_replace (q * q)%Q with ((- q) * (- q))%Q by ring.
    apply Qmult_le_0_compat; apply Qlt_le_weak;
      now apply (Qopp_lt_compat q 0).
  - now apply Qmult_le_0_compat.
Qed.

(** X15. The variance behind a standard deviation is nan for a column of
    fewer than two values (so a state with a single record has no "Std
    Dev"), and a non-negative number for two values or more. *)
Theorem variance_cases (l : list Z) :
  ((List.length l < 2)%nat -> Stats.variance l = NaN)
  /\ ((2 <= List.length l)%nat ->
      exists q, Stats.variance l = Fin q /\ Qle 0 q).
Proof.
  split.
  - intro Hlen. destruct l as [|x [|y l]]; [reflexivity | | simpl in Hlen; lia].
    unfold Stats.variance. rewrite mean_nonempty by discriminate.
    cbn [map fold_right List.length]. unfold fdiv, of_int. simpl Qeq_bool.
    cbn iota.
    assert (Hz : Qeq ((inject_Z x
                       - inject_Z (Series.sum [x]) / inject_Z (Z.of_nat 1))
                      * (inject_Z x
                         - inject_Z (Series.sum [x]) / inject_Z (Z.of_nat 1))
                      + 0) 0).
    { simpl Series.sum. rewrite Z.add_0_r. simpl Z.of_nat. field. }
    apply Qeq_alt in Hz. now rewrite Hz.
  - intro Hlen. unfold Stats.variance.
    rewrite mean_nonempty by (destruct l; [simpl in Hlen; lia | discriminate]).
    rewrite fdiv_Fin_of_int by lia.
    eexists. split; [reflexivity|].
    apply Qle_shift_div_l.
    + rewrite <- (Zlt_Qlt 0). lia.
    + rewrite Qmult_0_l. apply sum_squares_nonneg.
Qed.

Lemma sum_bounds (lo hi : Z) (l : list Z) :
  (forall y, In y l -> lo <= y <= hi) ->
  lo * Z.of_nat (List.length l) <= Series.sum l
  /\ Series.sum l <= hi * Z.of_nat (List.length l).
Proof.
  induction l as [|x l IH]; intro H; [simpl; lia|].
  destruct (IH (fun y Hy => H y (or_intror Hy))) as [Hlo Hhi].
  assert (Hx := H x (or_introl eq_refl)).
  cbn [List.length Series.sum fold_right]. fold (Series.sum l).
  rewrite Nat2Z.inj_succ. lia.
Qed.

Lemma Q_between_div (lo hi s n : Z) :
  0 < n -> lo * n <= s -> s <= hi * n ->
  Qle (inject_Z lo) (inject_Z s / inject_Z n)
  /\ Qle (inject_Z s / inject_Z n) (inject_Z hi).
Proof.
  intros Hn Hlo Hhi.
  assert (Hq : Qlt 0 (inject_Z n)) by (rewrite <- (Zlt_Qlt 0); exact Hn).
  split.
  - apply Qle_shift_div_l; [exact Hq|].
    rewrite <- inject_Z_mult. now rewrite <- Zle_Qle.
  - apply Qle_shift_div_r; [exact Hq|].
    rewrite <- inject_Z_mult. now rewrite <- Zle_Qle.
Qed.

(** X16. For a column with at least one value the minimum and the maximum
    are values of the column, and both the mean and the median are numbers
    lying between them. *)
Theorem mean_median_between (l : list Z) :
  l <> [] ->
  exists lo hi qmean qmedian,
    Stats.min l = VInt lo /\ Stats.max l = VInt hi
    /\ In lo l /\ In hi l /\ (forall y, In y l -> lo <= y <= hi)
    /\ Series.mean l = Fin qmean
    /\ Qle (inject_Z lo) qmean /\ Qle qmean (inject_Z hi)
    /\ Stats.median l = Fin qmedian
    /\ Qle (inject_Z lo) qmedian /\ Qle qmedian (inject_Z hi).
Proof.
  intro Hne. destruct l as [|x t]; [congruence|].
  destruct (fold_left_min_spec t x) as [Hlo_in Hlo].
  destruct (fold_left_max_spec t x) as [Hhi_in Hhi].
  set (lo := fold_left Z.min t x) in *.
  set (hi := fold_left Z.max t x) in *.
  assert (Hb : forall y, In y (x :: t) -> lo <= y <= hi)
    by (intros y Hy; split; [now apply Hlo | now apply Hhi]).
  destruct (sum_bounds lo hi (x :: t) Hb) as [Hslo Hshi].
  assert (Hn : 0 < Z.of_nat (List.length (x :: t))) by (simpl; lia).
  destruct (Q_between_div lo hi _ _ Hn Hslo Hshi) as [Hm1 Hm2].
  assert (Hperm := sorted_Permutation (x :: t)).
  assert (Hlen := Permutation_length Hperm).
  assert (Hnth : forall i, (i < List.length (sorted (x :: t)))%nat ->
                   lo <= nth i (sorted (x :: t)) 0 <= hi).
  { intros i Hi. apply Hb. apply (Permutation_in _ Hperm). now apply nth_In. }
  assert (Hmed : exists q, Stats.median (x :: t) = Fin q
                           /\ Qle (inject_Z lo) q /\ Qle q (inject_Z hi)).
  { unfold Stats.median. cbv zeta.
    remember (List.length (sorted (x :: t))) as n eqn:En.
    assert (Hpos : (0 < n)%nat) by (rewrite Hlen; simpl; lia).
    destruct n as [|n']; [lia|]. cbv iota.
    set (m := S n') in *.
    assert (Hhalf : (m / 2 < m)%nat) by (apply Nat.div_lt; lia).
    destruct (Nat.odd m) eqn:Eodd.
    - eexists. split; [reflexivity|].
      destruct (Hnth (m / 2)%nat Hhalf) as [H1 H2].
      now rewrite <- !Zle_Qle.
    - assert (Hge2 : (2 <= m)%nat).
      { unfold m in *. destruct n' as [|n'']; [discriminate | lia]. }
      assert (Hdiv : (1 <= m / 2)%nat)
        by (apply Nat.div_le_lower_bound; lia).
      destruct (Hnth (m / 2 - 1)%nat ltac:(lia)) as [A1 A2].
      destruct (Hnth (m / 2)%nat Hhalf) as [B1 B2].
      change (Fin 2) with (of_int 2). rewrite fdiv_of_int by lia.
      eexists. split; [reflexivity|].
      apply (Q_between_div lo hi _ 2); lia. }
  destruct Hmed as [qd [Emed [Hd1 Hd2]]].
  exists lo, hi. eexists. exists qd.
  split; [reflexivity|]. split; [reflexivity|].
  split; [exact Hlo_in|]. split; [exact Hhi_in|]. split; [exact Hb|].
  split; [now apply mean_nonempty|].
  split; [exact Hm1|]. split; [exact Hm2|].
  split; [exact Emed|]. split; assumption.
Qed.

Lemma mean_median_between_witness :
  exists lo hi qmean qmedian,
    Stats.min [3; 1; 2] = VInt lo /\ Stats.max [3; 1; 2] = VInt hi
    /\ In lo [3; 1; 2] /\ In hi [3; 1; 2]
    /\ (forall y, In y [3; 1; 2] -> lo <= y <= hi)
    /\ Series.mean [3; 1; 2] = Fin qmean
    /\ Qle (inject_Z lo) qmean /\ Qle qmean (inject_Z hi)
    /\ Stats.median [3; 1; 2] = Fin qmedian
    /\ Qle (inject_Z lo) qmedian /\ Qle qmedian (inject_Z hi).
Proof.
  apply (mean_median_between [3; 1; 2]). discriminate.
Defined.

Lemma selectbox_nonempty {A} (options : list A) (pick : nat) :
  options <> [] -> exists x, selectbox options pick = Some x.
Proof.
  intro Hne. unfold selectbox.
  destruct (nth_error options _) as [x|] eqn:E; [now exists x|].
  apply nth_error_None in E.
  destruct (Nat.ltb_spec pick (List.length options)); [lia|].
  destruct options; [congruence | simpl in E; lia].
Qed.

(** X17. The statistical summary never raises, whatever is picked and
    whatever the view: it shows the histogram and the five figures of one
    existing numeric column.  On a view without rows the five figures are
    nan. *)
Theorem statistical_block (fd : DataFrame) (w : Widgets) :
  exists c f,
    In c (numerical_cols fd) /\ int_reader fd c = Some f
    /\ (let v := map f (rows fd) in
        statistical fd w
        = ([Plot "Distribution" [c] (map (fun z => [VInt z]) v);
            Metric "Mean" (VFloat (Series.mean v)) None;
            Metric "Median" (VFloat (Stats.median v)) None;
            Metric "Std Dev" (VStd (Stats.variance v)) None;
            Metric "Min" (Stats.min v) None;
            Metric "Max" (Stats.max v) None], inr tt))
    /\ (rows fd = [] ->
        statistical fd w
        = ([Plot "Distribution" [c] [];
            Metric "Mean" (VFloat NaN) None;
            Metric "Median" (VFloat NaN) None;
            Metric "Std Dev" (VStd NaN) None;
            Metric "Min" (VFloat NaN) None;
            Metric "Max" (VFloat NaN) None], inr tt)).
Proof.
  assert (Hne : numerical_cols fd <> []) by discriminate.
  destruct (selectbox_nonempty (numerical_cols fd) (metric_pick w) Hne)
    as [c Ec].
  assert (Hin := selectbox_In _ _ _ Ec).
  destruct (getitem_numerical fd c Hin) as [v Ev].
  assert (Hf : exists f, int_reader fd c = Some f).
  { unfold getitem in Ev. destruct (int_reader fd c) as [f|];
      [now exists f | discriminate]. }
  destruct Hf as [f Ef].
  assert (Hrun : statistical fd w
                 = ([Plot "Distribution" [c]
                       (map (fun z => [VInt z]) (map f (rows fd)));
                     Metric "Mean" (VFloat (Series.mean (map f (rows fd)))) None;
                     Metric "Median"
                       (VFloat (Stats.median (map f (rows fd)))) None;
                     Metric "Std Dev"
                       (VStd (Stats.variance (map f (rows fd)))) None;
                     Metric "Min" (Stats.min (map f (rows fd))) None;
                     Metric "Max" (Stats.max (map f (rows fd))) None],
                    inr tt)).
  { unfold statistical.
    assert (Hlen : (0 <? List.length (numerical_cols fd))%nat = true)
      by reflexivity.
    rewrite Hlen, Ec. unfold getitem. rewrite Ef, bind_ret.
    rewrite !bind_emit. reflexivity. }
  exists c, f. split; [exact Hin|]. split; [exact Ef|].
  split; [exact Hrun|].
  intro Hempty. rewrite Hrun, Hempty. reflexivity.
Qed.

(* ------------------------------------------------------------------ *)
(** ** How a run ends *)

Lemma minor_adult_outcome (fd : DataFrame) (adults : Z) :
  outcome (minor_adult fd adults)
  = if has_column fd "minor_dount" && negb (has_column fd "minor_count")
    then inl (KeyError "minor_count") else inr tt.
Proof.
  unfold minor_adult.
  destruct (has_column fd "minor_dount"); [|reflexivity].
  destruct (has_column fd "minor_count") eqn:Hc.
  - destruct (getitem_present fd "minor_count" eq_refl Hc) as [v E].
    rewrite E, bind_ret. reflexivity.
  - now rewrite (getitem_missing fd "minor_count" eq_refl Hc).
Qed.

Lemma demographic_outcome_cases (fd : DataFrame) :
  outcome (demographic fd)
  = if negb (has_column fd "age_0_5") then inr tt
    else if negb (has_column fd "age_5_17") then inl (KeyError "age_5_17")
    else if negb (has_column fd "age_18_greater")
         then inl (KeyError "age_18_greater")
    else if has_column fd "minor_dount" && negb (has_column fd "minor_count")
         then inl (KeyError "minor_count")
    else inr tt.
Proof.
  destruct (has_column fd "age_0_5") eqn:H0;
    [|now rewrite (demographic_warning fd H0)].
  destruct (demographic_KeyError fd H0) as [K1 K2].
  destruct (has_column fd "age_5_17") eqn:H1; [|now rewrite K1].
  destruct (has_column fd "age_18_greater") eqn:H2; [|now rewrite K2].
  clear K1 K2. cbn [negb]. cbv iota.
  unfold demographic. rewrite H0.
  destruct (getitem_present fd "age_0_5" eq_refl H0) as [v0 E0].
  destruct (getitem_present fd "age_5_17" eq_refl H1) as [v1 E1].
  destruct (getitem_present fd "age_18_greater" eq_refl H2) as [v2 E2].
  rewrite E0, bind_ret, E1, bind_ret, E2, bind_ret.
  rewrite !bind_emit. cbn [outcome snd].
  apply minor_adult_outcome.
Qed.

Lemma has_column_filtered (data : DataFrame) (sel : Selection) (c : string) :
  has_column (filtered_data data sel) c = has_column data c.
Proof.
  unfold has_column, columns. now rewrite filtered_data_columns.
Qed.

(** X18. The demographic block can only end early with a [KeyError] for
    [age_5_17], [age_18_greater] or [minor_count], in that order of
    checking, never for [age_0_5] and never with another exception; and
    whether it does depends on the columns of the loaded file alone, not on
    what the filters keep. *)
Theorem demographic_outcome (data : DataFrame) (sel : Selection) :
  let fd := filtered_data data sel in
  outcome (demographic fd)
  = (if negb (has_column data "age_0_5") then inr tt
     else if negb (has_column data "age_5_17")
          then inl (KeyError "age_5_17")
     else if negb (has_column data "age_18_greater")
          then inl (KeyError "age_18_greater")
     else if has_column data "minor_dount"
             && negb (has_column data "minor_count")
          then inl (KeyError "minor_count")
     else inr tt)
  /\ outcome (demographic fd) = outcome (demographic data).
Proof.
  intro fd. unfold fd.
  rewrite (demographic_outcome_cases (filtered_data data sel)).
  rewrite !has_column_filtered. split; [reflexivity|].
  now rewrite demographic_outcome_cases.
Qed.

(** X19. With columns of the view selected in the explorer, a run ends
    with [IndexError] exactly when the filtered view is empty, and on any
    other view it ends the way its demographic block ends: no other block
    raises. *)
Theorem run_outcome (data : DataFrame) (sel : Selection) (w : Widgets) :
  let fd := filtered_data data sel in
  (forall c, In c (multiselect (firstn 10 (columns fd)) (columns_pick w)) ->
             has_column fd c = true) ->
  (outcome (app data sel w) = inl IndexError <-> rows fd = [])
  /\ (rows fd <> [] -> outcome (app data sel w) = outcome (demographic fd)).
Proof.
  intros fd Hcols.
  assert (Hnon : rows fd <> [] ->
                 outcome (app data sel w) = outcome (demographic fd))
    by (intro Hne; now apply nonempty_view_outcome).
  split; [|exact Hnon]. split.
  - intro Hout. destruct (rows fd) as [|r rs] eqn:E; [reflexivity|].
    exfalso. rewrite Hnon in Hout by discriminate.
    rewrite demographic_outcome_cases in Hout.
    repeat match type of Hout with
           | (if ?b then _ else _) = _ => destruct b
           end; discriminate.
  - intro Hempty. now apply empty_view_ends_run.
Qed.

Lemma run_outcome_witness :
  (outcome (app Examples.weekday_data Examples.weekend_only Examples.untouched)
   = inl IndexError <->
   rows (filtered_data Examples.weekday_data Examples.weekend_only) = [])
  /\ (rows (filtered_data Examples.weekday_data Examples.weekend_only) <> [] ->
      outcome (app Examples.weekday_data Examples.weekend_only
                 Examples.untouched)
      = outcome (demographic
                   (filtered_data Examples.weekday_data
                      Examples.weekend_only))).
Proof.
  apply (run_outcome Examples.weekday_data Examples.weekend_only
           Examples.untouched).
  intros c Hc. simpl in Hc.
  repeat (destruct Hc as [<- | Hc]; [reflexivity|]). destruct Hc.
Defined.

(** X20. A file without a [minor_dount] column that has either all three
    age brackets or no [age_0_5] (the canonical schema, with or without its
    optional columns) never makes a run raise on a view that has rows. *)
Theorem canonical_schema_completes
    (data : DataFrame) (sel : Selection) (w : Widgets) :
  let fd := filtered_data data sel in
  rows fd <> [] ->
  (forall c, In c (multiselect (firstn 10 (columns fd)) (columns_pick w)) ->
             has_column fd c = true) ->
  has_column data "minor_dount" = false ->
  has_column data "age_0_5" = false
  \/ (has_column data "age_5_17" = true
      /\ has_column data "age_18_greater" = true) ->
  outcome (app data sel w) = inr tt.
Proof.
  intros fd Hne Hcols Hm Hage.
  rewrite (nonempty_view_outcome data sel w Hne Hcols).
  rewrite demographic_outcome_cases, !has_column_filtered, Hm.
  destruct Hage as [-> | [-> ->]]; [reflexivity|].
  now destruct (has_column data "age_0_5").
Qed.

Lemma canonical_schema_completes_witness :
  outcome (app Examples.canonical_data Examples.everything Examples.untouched)
  = inr tt.
Proof.
  apply (canonical_schema_completes Examples.canonical_data
           Examples.everything Examples.untouched).
  - discriminate.
  - intros c Hc. simpl in Hc.
    repeat (destruct Hc as [<- | Hc]; [reflexivity|]). destruct Hc.
  - reflexivity.
  - right. split; reflexivity.
Defined.

(* ------------------------------------------------------------------ *)
(** ** More on the CSV export *)

(** X21. A written table reads back as itself, whatever commas, quote
    marks and line feeds its fields hold, a record of one empty field
    included, as long as no record is empty and no field has a carriage
    return that the writer leaves outside quotes; two different such tables
    never give the same file.  A carriage return left bare splits its
    record in two. *)
Theorem csv_text_determines_table (t : list (list string)) :
  Forall (fun fs => fs <> []) t ->
  Forall (Forall (fun s => Csv.bare_CR s = false)) t ->
  Csv.read (Csv.write t) = Some t
  /\ (forall t', Forall (fun fs => fs <> []) t' ->
                 Forall (Forall (fun s => Csv.bare_CR s = false)) t' ->
                 Csv.write t' = Csv.write t -> t' = t)
  /\ Csv.read (Csv.write [["Goa"; String "c" (String Csv.CR "d"); "2023"]])
     = Some [["Goa"; "c"]; ["d"; "2023"]].
Proof.
  intros Ht Hcr. split; [now apply CsvFacts.read_write|].
  split; [|reflexivity].
  intros t' Ht' Hcr' E.
  assert (H1 := CsvFacts.read_write t Ht Hcr).
  assert (H2 := CsvFacts.read_write t' Ht' Hcr').
  rewrite E, H1 in H2. now injection H2.
Qed.

Lemma csv_text_determines_table_witness :
  Csv.read (Csv.write [["Dadra, Nagar"; String Csv.dquote "x"];
                       [String Csv.LF (String Csv.CR "y"); ""];
                       [""]])
  = Some [["Dadra, Nagar"; String Csv.dquote "x"];
          [String Csv.LF (String Csv.CR "y"); ""];
          [""]].
Proof.
  apply (csv_text_determines_table
           [["Dadra, Nagar"; String Csv.dquote "x"];
            [String Csv.LF (String Csv.CR "y"); ""];
            [""]]).
  - repeat constructor; discriminate.
  - repeat constructor.
Defined.

(** X22. The export of a filtered view is the header line of the loaded
    data followed, for each record that passes the filter and in the
    original order, by the very line that record has in the export of the
    whole data set. *)
Theorem export_of_view (data : DataFrame) (sel : Selection) :
  let kept := filter (passes sel) (rows data) in
  Csv.table (filtered_data data sel)
  = columns data :: map (Csv.record data) kept
  /\ Csv.to_csv (filtered_data data sel)
     = (Csv.line (columns data)
        ++ Csv.write (map (Csv.record data) kept))%string
  /\ Csv.to_csv data
     = (Csv.line (columns data)
        ++ Csv.write (map (Csv.record data) (rows data)))%string.
Proof.
  intro kept.
  assert (Ht : Csv.table (filtered_data data sel)
               = columns data :: map (Csv.record data) kept).
  { unfold Csv.table, columns.
    rewrite filtered_data_columns, filtered_data_filter. f_equal.
    apply map_ext. intro r. unfold Csv.record.
    now rewrite filtered_data_columns. }
  split; [exact Ht|]. split.
  - unfold Csv.to_csv. rewrite Ht. reflexivity.
  - reflexivity.
Qed.

(* ------------------------------------------------------------------ *)
(** ** Growth after a year without enrollment *)

(** X23. When the previous year's total is zero the growth of a year is
    not an error: it is plus infinity for a positive total, minus infinity
    for a negative one, and nan for zero. *)
Theorem growth_after_zero_total (totals : list Z) (i : nat) (this : Z) :
  nth_error totals i = Some 0 ->
  nth_error totals (S i) = Some this ->
  nth_error (Growth_pct totals) (S i)
  = Some (if 0 <? this then PInf else if this <? 0 then NInf else NaN).
Proof.
  intros Hp Hc. destruct totals as [|x t]; [destruct i; discriminate|].
  unfold Growth_pct. rewrite pct_change_cons. cbn [map nth_error].
  rewrite map_map.
  rewrite (map_nth_error _ _ _ (with_previous_nth t x i 0 this Hp Hc)).
  f_equal. cbn [fst snd]. destruct this; reflexivity.
Qed.

Lemma growth_after_zero_total_witness :
  nth_error (Growth_pct [0; 5]) 1 = Some PInf.
Proof.
  exact (growth_after_zero_total [0; 5] 0 5 eq_refl eq_refl).
Defined.

(* ------------------------------------------------------------------ *)
(** ** Averages per state, default comparison *)

(** X24. On a view with rows, "Average per State" is a number: the one
    that multiplied by the number of states of the view gives the total
    enrollment shown among the indicators. *)
Theorem average_per_state (fd : DataFrame) :
  rows fd <> [] ->
  exists q,
    Series.mean (map Total_Enrollment (state_map_data fd)) = Fin q
    /\ Qeq (q * inject_Z (Z.of_nat (nunique (map state (rows fd)))))
           (inject_Z (Series.sum (enrollments (rows fd)))).
Proof.
  intro Hne.
  assert (Hmap := agg_enrollment_nonempty state (rows fd) Hne).
  fold (state_map_data fd) in Hmap.
  assert (Hlen : List.length (map Total_Enrollment (state_map_data fd))
                 = nunique (map state (rows fd)))
    by (rewrite length_map; apply agg_enrollment_length).
  assert (Hsum : Series.sum (map Total_Enrollment (state_map_data fd))
                 = Series.sum (enrollments (rows fd)))
    by apply agg_enrollment_sum.
  assert (Hne' : map Total_Enrollment (state_map_data fd) <> [])
    by (destruct (state_map_data fd); [congruence | discriminate]).
  eexists. split; [now apply mean_nonempty|].
  rewrite Hsum, Hlen. field. apply inject_Z_nonzero.
  rewrite <- Hlen.
  destruct (map Total_Enrollment (state_map_data fd));
    [congruence | simpl; lia].
Qed.

Lemma average_per_state_witness :
  exists q,
    Series.mean (map Total_Enrollment (state_map_data Examples.sample_data))
    = Fin q
    /\ Qeq (q * inject_Z (Z.of_nat
                            (nunique (map state (rows Examples.sample_data)))))
           (inject_Z (Series.sum (enrollments (rows Examples.sample_data)))).
Proof.
  apply (average_per_state Examples.sample_data). discriminate.
Defined.

Lemma NoDup_firstn {A} (n : nat) (l : list A) : NoDup l -> NoDup (firstn n l).
Proof.
  revert n. induction l as [|a l IH]; intros n Hnd.
  - rewrite firstn_nil. constructor.
  - destruct n as [|n]; [constructor|]. simpl.
    inversion Hnd as [|? ? Hnotin Hnd']; subst. constructor.
    + intro Hin. apply Hnotin.
      rewrite <- (firstn_skipn n l). apply in_or_app. now left.
    + now apply IH.
Qed.

(** X25. Until the user edits it, the comparison holds at most three
    states, all of them different states of the view, and at least one
    whenever the view has rows, so that the comparison is then shown. *)
Theorem default_compare_states (fd : DataFrame) (w : Widgets) :
  compare_states_pick w = None ->
  (List.length (compare_states fd w) <= 3)%nat
  /\ NoDup (compare_states fd w)
  /\ (forall s, In s (compare_states fd w) ->
        exists r, In r (rows fd) /\ state r = s)
  /\ (rows fd <> [] -> compare_states fd w <> []).
Proof.
  intro Hpick. unfold compare_states. rewrite Hpick. cbn [multiselect].
  fold (group_keys state (rows fd)).
  split; [apply firstn_le_length|].
  split; [apply NoDup_firstn, NoDup_group_keys|]. split.
  - intros s Hs. apply In_group_keys.
    rewrite <- (firstn_skipn 3 (group_keys state (rows fd))).
    apply in_or_app. now left.
  - intros Hne E.
    destruct (rows fd) as [|r rs] eqn:Er; [congruence|].
    assert (Hin : In (state r) (group_keys state (r :: rs)))
      by (apply In_group_keys; exists r; split; [now left | reflexivity]).
    destruct (group_keys state (r :: rs)); [destruct Hin | discriminate].
Qed.

Lemma default_compare_states_witness :
  (List.length (compare_states Examples.sample_data Examples.untouched) <= 3)%nat
  /\ NoDup (compare_states Examples.sample_data Examples.untouched)
  /\ (forall s, In s (compare_states Examples.sample_data Examples.untouched) ->
        exists r, In r (rows Examples.sample_data) /\ state r = s)
  /\ (rows Examples.sample_data <> [] ->
      compare_states Examples.sample_data Examples.untouched <> []).
Proof.
  apply (default_compare_states Examples.sample_data Examples.untouched).
  reflexivity.
Defined.
